(** * Tool execution platform: registry, input normaliser, dispatcher

    A shallow embedding of the Python service under [backend/app]:
    - [core/exceptions.py], [core/config.py], [core/base_tool.py],
      [core/tool_registry.py];
    - [services/file_service.py];
    - the three tools under [tools/];
    - [api/routes_system.py], [api/routes_tools.py] and the exception
      handlers of [main.py].

    Python exceptions are an explicit [result]; the files written under the
    temporary directory and the module-level [TOOLS] dictionary are threaded
    as state.  Calls to [logger] are left out: they return nothing and
    change nothing that a response depends on. *)

From Stdlib Require Import ZArith String Ascii List Floats.
From stdpp Require Import gmap strings pretty.

Set Warnings "-register-all".

Local Open Scope Z_scope.
Local Open Scope string_scope.

(** ** Python strings *)

(** A [str] is modelled as a [string]: one [ascii] per character.  What
    Python decides from its Unicode tables for a character outside ASCII
    is not fixed here, see [Env]. *)

Definition is_ascii (c : ascii) : bool := (nat_of_ascii c <? 128)%nat.

Definition is_ascii_upper (c : ascii) : bool :=
  ((65 <=? nat_of_ascii c) && (nat_of_ascii c <=? 90))%nat.

Definition is_ascii_lower (c : ascii) : bool :=
  ((97 <=? nat_of_ascii c) && (nat_of_ascii c <=? 122))%nat.

Definition is_ascii_digit (c : ascii) : bool :=
  ((48 <=? nat_of_ascii c) && (nat_of_ascii c <=? 57))%nat.

Fixpoint str_filter (keep : ascii -> bool) (s : string) : string :=
  match s with
  | EmptyString => EmptyString
  | String c rest =>
      if keep c then String c (str_filter keep rest) else str_filter keep rest
  end.

Fixpoint str_map (f : ascii -> ascii) (s : string) : string :=
  match s with
  | EmptyString => EmptyString
  | String c rest => String (f c) (str_map f rest)
  end.

(** [s.startswith(p)] *)
Fixpoint startswith (p s : string) : bool :=
  match p, s with
  | EmptyString, _ => true
  | String a p', String b s' => if Ascii.eqb a b then startswith p' s' else false
  | String _ _, EmptyString => false
  end.

(** [sub in s] *)
Fixpoint str_contains (sub s : string) : bool :=
  startswith sub s ||
  match s with
  | EmptyString => false
  | String _ rest => str_contains sub rest
  end.

(** [s.replace(old, new)] for a non-empty [old]: occurrences are found
    from the left and do not overlap.  [skip] counts the characters of
    the occurrence just replaced that are still to be passed over. *)
Fixpoint replace_from (old new : string) (skip : nat) (s : string) : string :=
  match s with
  | EmptyString => EmptyString
  | String c rest =>
      match skip with
      | S k => replace_from old new k rest
      | O =>
          if startswith old s
          then new +:+ replace_from old new (String.length old - 1)%nat rest
          else String c (replace_from old new O rest)
      end
  end.

Definition str_replace (old new s : string) : string := replace_from old new O s.

(** Python truthiness of a [str]. *)
Definition str_truthy (s : string) : bool :=
  match s with EmptyString => false | _ => true end.

(** ** Exceptions ([core/exceptions.py]) *)

(** [ToolExecutionException] and its four subclasses; each carries
    [message]. *)
Inductive ToolErrorClass :=
| ToolExecutionException
| ToolNotFoundException
| InvalidInputException
| FileProcessingException
| ToolValidationException.

Inductive exn :=
| ToolError (cls : ToolErrorClass) (message : string)
| HTTPException (status_code : Z) (detail : string)
| KeyError (arg : string)
| PyException (cls : string) (text : string).
    (* any other exception: its class name and its [str(e)] *)

Inductive result (A : Type) :=
| Ok (a : A)
| Raise (e : exn).
Arguments Ok {A} a.
Arguments Raise {A} e.

Definition rbind {A B} (r : result A) (k : A -> result B) : result B :=
  match r with
  | Ok a => k a
  | Raise e => Raise e
  end.

(** ** Configuration ([core/config.py]) *)

Record Settings := {
  APP_NAME : string;
  DEBUG : bool;
  MAX_FILE_SIZE : Z;
  TEMP_DIR : string;
  ALLOWED_IMAGE_FORMATS : list string
}.

(** The defaults of the class; each can be overridden from the process
    environment. *)
Definition default_settings : Settings := {|
  APP_NAME := "Tool Execution Platform";
  DEBUG := true;
  MAX_FILE_SIZE := 10 * 1024 * 1024;
  TEMP_DIR := "/tmp/tool-execution";
  ALLOWED_IMAGE_FORMATS := ["png"; "jpg"; "jpeg"; "webp"; "gif"; "bmp"]
|}.

(** ** Python values *)

Definition bytes := list Byte.byte.

(** The values that cross the tool boundary: what [request.json()] and
    the form loop produce, what a tool returns.  An instance of a class
    is known by its class name and its attributes. *)
Inductive PyVal :=
| PyNone
| PyBool (b : bool)
| PyInt (n : Z)
| PyFloat (f : float)
| PyStr (s : string)
| PyBytes (b : bytes)
| PyList (xs : list PyVal)
| PyTuple (xs : list PyVal)
| PyDict (items : list (string * PyVal))
| PyObject (cls : string) (attrs : list (string * PyVal)).

(** [not v] is [negb (truthy v)]. *)
Definition truthy (v : PyVal) : bool :=
  match v with
  | PyNone => false
  | PyBool b => b
  | PyInt n => negb (n =? 0)%Z
  | PyFloat f => negb (PrimFloat.eqb f 0%float)
  | PyStr s => str_truthy s
  | PyBytes b => match b with [] => false | _ => true end
  | PyList xs | PyTuple xs => match xs with [] => false | _ => true end
  | PyDict items => match items with [] => false | _ => true end
  | PyObject _ _ => true
  end.

(** [type(v).__name__], as it appears in an [AttributeError]. *)
Definition type_name (v : PyVal) : string :=
  match v with
  | PyNone => "NoneType"
  | PyBool _ => "bool"
  | PyInt _ => "int"
  | PyFloat _ => "float"
  | PyStr _ => "str"
  | PyBytes _ => "bytes"
  | PyList _ => "list"
  | PyTuple _ => "tuple"
  | PyDict _ => "dict"
  | PyObject cls _ => cls
  end.

(** First binding of a key in a list of pairs. *)
Fixpoint assoc {A} (k : string) (l : list (string * A)) : option A :=
  match l with
  | [] => None
  | (k', a) :: rest => if String.eqb k k' then Some a else assoc k rest
  end.

(** [v.attr], for the two attributes the tools read, [file] and
    [filename]: no built-in type has either. *)
Definition getattr (v : PyVal) (attr : string) : result PyVal :=
  let missing :=
    Raise (PyException "AttributeError"
             ("'" +:+ type_name v +:+ "' object has no attribute '" +:+ attr +:+ "'")) in
  match v with
  | PyObject _ attrs =>
      match assoc attr attrs with
      | Some a => Ok a
      | None => missing
      end
  | _ => missing
  end.

(** A parsed JSON document, and the Python value [json.loads] builds
    from it. *)
Inductive json :=
| JNull
| JBool (b : bool)
| JInt (n : Z)
| JFloat (f : float)
| JStr (s : string)
| JArr (xs : list json)
| JObj (members : list (string * json)).

Fixpoint of_json (j : json) : PyVal :=
  match j with
  | JNull => PyNone
  | JBool b => PyBool b
  | JInt n => PyInt n
  | JFloat f => PyFloat f
  | JStr s => PyStr s
  | JArr xs => PyList (List.map of_json xs)
  | JObj members => PyDict (List.map (fun kv => (fst kv, of_json (snd kv))) members)
  end.

(** What the standard encoder accepts: [None], booleans, numbers,
    strings, lists and tuples of such values, dictionaries with string
    keys and such values. *)
Fixpoint json_compatible (v : PyVal) : bool :=
  match v with
  | PyNone | PyBool _ | PyInt _ | PyFloat _ | PyStr _ => true
  | PyList xs | PyTuple xs => forallb json_compatible xs
  | PyDict items => forallb (fun kv => json_compatible (snd kv)) items
  | PyBytes _ | PyObject _ _ => false
  end.

(** A keyword-argument dictionary.  Only membership and lookup by key are
    used on it, so the insertion order of the Python [dict] is not kept. *)
Abbreviation kwargs := (gmap string PyVal).

(** The [dict] built from the members of a JSON object: a repeated key
    keeps its last value. *)
Definition dict_of_items (items : list (string * PyVal)) : kwargs :=
  fold_left (fun d kv => <[fst kv := snd kv]> d) items ∅.

(** A value that is not an instance of a class, and a dictionary of
    such values. *)
Definition not_object (v : PyVal) : Prop :=
  match v with
  | PyObject _ _ => False
  | _ => True
  end.

Abbreviation no_objects := (map_Forall (fun (_ : string) (v : PyVal) => not_object v)).

(** ** The storage under the temporary directory *)

(** Regular files by path. *)
Abbreviation FS := (gmap string bytes).

(** A pillow image, as far as the tools look at it. *)
Record Image := {
  im_mode : string;
  im_size : Z * Z;
  im_data : bytes
}.

(** ** What the model takes from outside the repository

    The interpreter, the operating system and the third-party packages
    (pydantic, qrcode, pillow, pathlib) are not part of the sources.  Every
    definition below is stated for an arbitrary [Env]. *)
Record Env := {
  settings : Settings;
  (* Unicode tables: [\w] of a character outside ASCII, [lower] and
     [upper] of a string that is not all ASCII *)
  unicode_word : ascii -> bool;
  unicode_lower : string -> string;
  unicode_upper : string -> string;
  (* [str(MAX_FILE_SIZE / (1024 * 1024))], a float *)
  str_size_mb : Z -> string;
  (* [repr] of a string *)
  repr_str : string -> string;
  (* the built-in [hash], fixed for the life of the process *)
  py_hash : PyVal -> result Z;
  (* pathlib: [str(Path(a) / b)], [Path(name).suffix]; for a [v] that is
     not a string, the path [Path(v)] takes from an [os.PathLike] object,
     or else the text of its [TypeError] *)
  path_join : string -> string -> string;
  path_suffix : string -> string;
  Path_of : PyVal -> option string;
  path_type_error : PyVal -> string;
  (* starlette: class and text of the exception that building
     [FileResponse(path, filename, media_type, headers)] raises, if it
     raises: the file name and the extension are encoded as header
     values there *)
  FileResponse_error : PyVal -> PyVal -> string -> string -> option (string * string);
  (* [os.path.splitext] *)
  splitext : PyVal -> result (string * string);
  (* the operating system refusing [mkdir] or [write_bytes] *)
  mkdir_error : FS -> string -> option exn;
  write_error : FS -> string -> option exn;
  (* pydantic models of the three [schemas.py]: the validated fields *)
  QRGeneratorInput : kwargs -> result string;
  ImageConverterInput : kwargs -> result (string * Z);
  ImageCompressorInput : kwargs -> result Z;
  (* qrcode: [add_data], [make], [make_image], and the PNG encoding *)
  qr_make_image : string -> result bytes;
  (* pillow: [Image.open], [Image.new], [split], [paste], [convert], and
     the encoder behind [save] (format, quality, optimize) *)
  Image_open : PyVal -> result Image;
  Image_new : string -> Z * Z -> Image;
  Image_split : Image -> list Image;
  Image_paste : Image -> Image -> option Image -> result Image;
  Image_convert : Image -> string -> result Image;
  Image_encode : Image -> string -> option Z -> bool -> result bytes
}.

(** ** Computations over a state *)

Definition ST (S A : Type) : Type := S -> result A * S.

Definition ret {S A} (a : A) : ST S A := fun s => (Ok a, s).

Definition raise {S A} (e : exn) : ST S A := fun s => (Raise e, s).

Definition lift {S A} (r : result A) : ST S A := fun s => (r, s).

Definition bind {S A B} (m : ST S A) (k : A -> ST S B) : ST S B :=
  fun s =>
    match m s with
    | (Ok a, s') => k a s'
    | (Raise e, s') => (Raise e, s')
    end.

(** [try: body / except Exception as e: handler(e)]; what [body] did to
    the state before it raised stays done. *)
Definition try_except {S A} (body : ST S A) (handler : exn -> ST S A) : ST S A :=
  fun s =>
    match body s with
    | (Ok a, s') => (Ok a, s')
    | (Raise e, s') => handler e s'
    end.

(** A computation that removes no file: what is stored before is stored
    after, possibly with another content. *)
Definition keeps_files {A} (m : ST FS A) : Prop :=
  forall (fs : FS) (path : string), is_Some (fs !! path) -> is_Some (snd (m fs) !! path).

Declare Scope st_scope.
Delimit Scope st_scope with st.
Notation "x <- m ;; k" := (bind m (fun x => k))
  (at level 100, m at next level, right associativity) : st_scope.
Notation "m ;;; k" := (bind m (fun _ => k))
  (at level 100, right associativity) : st_scope.

(** Computations of the file service and of the tools. *)
Abbreviation IO := (ST FS).

Section Platform.

Context (E : Env).

(** [str(e)] *)
Definition str_exn (e : exn) : string :=
  match e with
  | ToolError _ message => message
  | HTTPException status_code detail => pretty status_code +:+ ": " +:+ detail
  | KeyError arg => repr_str E arg
  | PyException _ text => text
  end.

(** [\w] of the [re] module on a [str] pattern. *)
Definition is_word (c : ascii) : bool :=
  if is_ascii c
  then is_ascii_upper c || is_ascii_lower c || is_ascii_digit c || Ascii.eqb c "_"
  else unicode_word E c.

Definition all_ascii (s : string) : bool :=
  String.eqb (str_filter is_ascii s) s.

(** [s.lower()] and [s.upper()] *)
Definition lower (s : string) : string :=
  if all_ascii s
  then str_map (fun c => if is_ascii_upper c then ascii_of_nat (nat_of_ascii c + 32) else c) s
  else unicode_lower E s.

Definition upper (s : string) : string :=
  if all_ascii s
  then str_map (fun c => if is_ascii_lower c then ascii_of_nat (nat_of_ascii c - 32) else c) s
  else unicode_upper E s.

(** [x in xs] for a tuple of strings. *)
Definition str_in (x : string) (xs : list string) : bool := existsb (String.eqb x) xs.

(** ** [services/file_service.py] *)

(** [file_service.temp_dir], set by [FileService.__init__]. *)
Definition temp_dir : string := TEMP_DIR (settings E).

(** [re.sub(r'[^\w\-.]', '', filename)] keeps exactly these characters. *)
Definition safe_char (c : ascii) : bool :=
  is_word c || Ascii.eqb c "-" || Ascii.eqb c ".".

Definition clean_filename (filename : string) : result string :=
  if negb (str_truthy filename)
  then Raise (ToolError FileProcessingException "Filename cannot be empty")
  else
    let filename := str_replace "/" "" (str_replace "\" "" filename) in
    let filename := str_replace ".." "" filename in
    let safe_filename := str_filter safe_char filename in
    if negb (str_truthy safe_filename)
    then Raise (ToolError FileProcessingException "Filename contains no valid characters")
    else Ok safe_filename.

Definition validate_file_size (file_size : Z) : result unit :=
  if (file_size >? MAX_FILE_SIZE (settings E))%Z
  then Raise (ToolError FileProcessingException
                ("File size exceeds maximum of "
                 +:+ str_size_mb E (MAX_FILE_SIZE (settings E)) +:+ "MB"))
  else Ok tt.

(** [Path.mkdir(parents=True, exist_ok=True)] *)
Definition mkdir (dir : string) : IO unit :=
  fun fs =>
    match mkdir_error E fs dir with
    | Some e => (Raise e, fs)
    | None => (Ok tt, fs)
    end.

(** [Path.write_bytes]: the file at [path] is created or replaced. *)
Definition write_bytes (path : string) (content : bytes) : IO unit :=
  fun fs =>
    match write_error E fs path with
    | Some e => (Raise e, fs)
    | None => (Ok tt, <[path := content]> fs)
    end.

(** [len] of a [bytes] object. *)
Definition len (content : bytes) : Z := Z.of_nat (List.length content).

Definition save_uploaded_file
    (file_content : bytes) (original_filename : string) (subfolder : option string)
  : IO string :=
  try_except
    (_ <- lift (validate_file_size (len file_content)) ;;
     clean_name <- lift (clean_filename original_filename) ;;
     save_dir <- match subfolder with
                 | Some sub =>
                     if str_truthy sub
                     then (let save_dir := path_join E temp_dir sub in
                           mkdir save_dir ;;; ret save_dir)
                     else ret temp_dir
                 | None => ret temp_dir
                 end ;;
     let file_path := path_join E save_dir clean_name in
     write_bytes file_path file_content ;;;
     ret file_path)%st
    (fun e =>
       match e with
       | ToolError FileProcessingException _ => raise e
       | _ => raise (ToolError FileProcessingException
                       ("Failed to save file: " +:+ str_exn e))
       end).

Definition generate_output_path
    (tool_name filename : string) (extension : option string)
  : IO (string * string) :=
  (let output_dir := path_join E temp_dir tool_name in
   mkdir output_dir ;;;
   clean_name <- lift (clean_filename filename) ;;
   let filename_with_ext :=
     match extension with
     | Some ext =>
         if str_truthy ext
         then clean_name +:+ (if startswith "." ext then ext else "." +:+ ext)
         else clean_name
     | None => clean_name
     end in
   ret (path_join E output_dir filename_with_ext, filename_with_ext))%st.


(** The directory [save_uploaded_file] writes in. *)
Definition save_dir_of (subfolder : option string) : string :=
  match subfolder with
  | Some sub => if str_truthy sub then path_join E temp_dir sub else temp_dir
  | None => temp_dir
  end.

(** ** [core/base_tool.py] *)

(** An instance of a subclass of [BaseTool]: its class attributes and its
    [run].  A tool reads and writes files only. *)
Record Tool := {
  class_name : string;
  name : string;
  description : string;
  version : string;
  input_schema : PyVal;
  output_type : string;
  run : kwargs -> IO PyVal
}.

(** [BaseTool.__init__] *)
Definition BaseTool_init (self : Tool) : result unit :=
  let fail text := Raise (PyException "ValueError" (class_name self +:+ text)) in
  if negb (str_truthy (name self)) then fail " must define 'name' attribute"
  else if negb (str_truthy (description self)) then fail " must define 'description' attribute"
  else if negb (str_truthy (version self)) then fail " must define 'version' attribute"
  else if negb (truthy (input_schema self)) then fail " must define 'input_schema' dict"
  else if negb (str_in (output_type self) ["json"; "file"])
       then fail " output_type must be 'json' or 'file'"
  else Ok tt.

(** The dictionary [get_metadata] returns, by key. *)
Record Metadata := {
  md_name : string;
  md_description : string;
  md_version : string;
  md_input_schema : PyVal;
  md_output_type : string
}.

Definition get_metadata (self : Tool) : Metadata := {|
  md_name := name self;
  md_description := description self;
  md_version := version self;
  md_input_schema := input_schema self;
  md_output_type := output_type self
|}.

(** ** [tools/qr_generator] *)

Definition generate_qr_code (data : string) : IO (string * string) :=
  try_except
    (img <- lift (qr_make_image E data) ;;
     h <- lift (py_hash E (PyStr data)) ;;
     let filename := "qr_code_" +:+ pretty (h mod 10000000) +:+ ".png" in
     out <- generate_output_path "qr_generator" filename (Some ".png") ;;
     let file_path := fst out in
     write_bytes file_path img ;;;
     ret (file_path, filename))%st
    (fun e => raise e).

Definition pair_value (p : string * string) : PyVal :=
  PyTuple [PyStr (fst p); PyStr (snd p)].

Definition QRGeneratorTool : Tool := {|
  class_name := "QRGeneratorTool";
  name := "qr-generator";
  description := "Generate a QR code from text data";
  version := "1.0.0";
  output_type := "file";
  input_schema :=
    PyDict [
      ("type", PyStr "object");
      ("properties", PyDict [
         ("data", PyDict [
            ("type", PyStr "string");
            ("description", PyStr "Data to encode in QR code");
            ("minLength", PyInt 1);
            ("maxLength", PyInt 2953);
            ("example", PyStr "https://example.com")])]);
      ("required", PyList [PyStr "data"])];
  run := fun kwargs =>
    (data <- try_except
               (lift (QRGeneratorInput E kwargs))
               (fun e => raise (ToolError InvalidInputException
                                  ("Invalid input: " +:+ str_exn e))) ;;
     try_except
       (out <- generate_qr_code data ;;
        ret (pair_value out))
       (fun e => raise (ToolError ToolExecutionException
                          ("Failed to generate QR code: " +:+ str_exn e))))%st
|}.

(** ** [tools/image_converter] *)

Definition convert_image (input_path : PyVal) (target_format : string) (quality : Z)
  : IO (string * string) :=
  try_except
    (let allowed_formats := ALLOWED_IMAGE_FORMATS (settings E) in
     if negb (str_in (lower target_format) allowed_formats)
     then raise (PyException "ValueError" ("Format " +:+ target_format +:+ " not allowed"))
     else
       stream <- lift (getattr input_path "file") ;;
       image <- lift (Image_open E stream) ;;
       image <-
         (if str_in (lower target_format) ["jpg"; "jpeg"]
             && str_in (im_mode image) ["RGBA"; "LA"; "P"]
          then
            let background := Image_new E "RGB" (im_size image) in
            mask <-
              (if String.eqb (im_mode image) "RGBA"
               then match List.last (List.map Some (Image_split E image)) None with
                    | Some band => ret (Some band)
                    | None => raise (PyException "IndexError" "list index out of range")
                    end
               else ret None) ;;
            lift (Image_paste E background image mask)
          else ret image) ;;
       filename <- lift (getattr input_path "filename") ;;
       h <- lift (py_hash E filename) ;;
       let output_name := "converted_" +:+ pretty (h mod 10000000) in
       out <- generate_output_path "image_converter" output_name
                (Some ("." +:+ lower target_format)) ;;
       let output_path := fst out in
       encoded <-
         lift (if str_in (lower target_format) ["jpg"; "jpeg"; "webp"]
               then Image_encode E image (upper target_format) (Some quality) false
               else Image_encode E image (upper target_format) None false) ;;
       write_bytes output_path encoded ;;;
       ret out)%st
    (fun e => raise e).

Definition ImageConverterTool : Tool := {|
  class_name := "ImageConverterTool";
  name := "image-converter";
  description := "Convert images between different formats";
  version := "1.0.0";
  output_type := "file";
  input_schema :=
    PyDict [
      ("type", PyStr "object");
      ("properties", PyDict [
         ("image_file_path", PyDict [
            ("type", PyStr "file");
            ("description", PyStr "Input image file (injected by API)")]);
         ("target_format", PyDict [
            ("type", PyStr "string");
            ("description", PyStr "Target image format");
            ("enum", PyList [PyStr "png"; PyStr "jpg"; PyStr "jpeg";
                             PyStr "webp"; PyStr "gif"; PyStr "bmp"]);
            ("example", PyStr "png")]);
         ("quality", PyDict [
            ("type", PyStr "integer");
            ("description", PyStr "Quality for lossy formats (1-100)");
            ("minimum", PyInt 1);
            ("maximum", PyInt 100);
            ("default", PyInt 85)])]);
      ("required", PyList [PyStr "image_file_path"; PyStr "target_format"])];
  run := fun kwargs =>
    (* [kwargs.pop('image_file_path', None)] *)
    let image_file_path := default PyNone (kwargs !! "image_file_path") in
    let kwargs := delete "image_file_path" kwargs in
    if negb (truthy image_file_path)
    then raise (ToolError ToolExecutionException "No image file provided")
    else
      (input_data <- try_except
                       (lift (ImageConverterInput E kwargs))
                       (fun e => raise (ToolError InvalidInputException
                                          ("Invalid input: " +:+ str_exn e))) ;;
       try_except
         (out <- convert_image image_file_path (fst input_data) (snd input_data) ;;
          ret (pair_value out))
         (fun e => raise (ToolError ToolExecutionException
                            ("Failed to convert image: " +:+ str_exn e))))%st
|}.

(** ** [tools/image_compressor] *)

(** [s.strip(".")] *)
Fixpoint lstrip_dots (s : string) : string :=
  match s with
  | String "." rest => lstrip_dots rest
  | _ => s
  end.

Definition strip_dots (s : string) : string :=
  String.rev (lstrip_dots (String.rev (lstrip_dots s))).

Definition compress_image (input_path : PyVal) (quality : Z) : IO (string * string) :=
  try_except
    (image_stream <- lift (getattr input_path "file") ;;
     image <- lift (Image_open E image_stream) ;;
     image <- (if str_in (im_mode image) ["RGBA"; "P"]
               then lift (Image_convert E image "RGB")
               else ret image) ;;
     filename <- lift (getattr input_path "filename") ;;
     parts <- lift (splitext E filename) ;;
     let file_name := fst parts in
     let ext := snd parts in
     h <- lift (py_hash E (PyStr file_name)) ;;
     let output_name := "compressed_" +:+ pretty (h mod 10000000) +:+ ext in
     out <- generate_output_path file_name output_name (Some ext) ;;
     let output_path := fst out in
     encoded <- lift (Image_encode E image (strip_dots ext) (Some quality) true) ;;
     write_bytes output_path encoded ;;;
     ret out)%st
    (fun e => raise e).

Definition ImageCompressorTool : Tool := {|
  class_name := "ImageCompressorTool";
  name := "image-compressor";
  description := "Compress images to reduce file size while maintaining quality";
  version := "1.0.0";
  output_type := "file";
  input_schema :=
    PyDict [
      ("type", PyStr "object");
      ("properties", PyDict [
         ("image_file_path", PyDict [
            ("type", PyStr "file");
            ("description", PyStr "Input Image file (injected by API)")]);
         ("quality", PyDict [
            ("type", PyStr "integer");
            ("description", PyStr "Quality for lossy formats (1-100)");
            ("minimum", PyInt 1);
            ("maximum", PyInt 100);
            ("default", PyInt 85)])]);
      ("required", PyList [PyStr "image_file_path"])];
  run := fun kwargs =>
    (* [kwargs.get("image_file_path")] *)
    let file_path := default PyNone (kwargs !! "image_file_path") in
    if negb (truthy file_path)
    then raise (ToolError ToolExecutionException "No image file provided")
    else
      (quality <- try_except
                    (lift (ImageCompressorInput E kwargs))
                    (fun e => raise (ToolError InvalidInputException
                                       ("Invalid input: " +:+ str_exn e))) ;;
       try_except
         (out <- compress_image file_path quality ;;
          ret (pair_value out))
         (fun e => raise (ToolError ToolExecutionException
                            ("Failed to compress image: " +:+ str_exn e))))%st
|}.

(** ** [core/tool_registry.py] *)

(** The module-level dictionary [TOOLS], in insertion order. *)
Definition Registry := list (string * Tool).

Definition initial_TOOLS : Registry := [
  ("qr-generator", QRGeneratorTool);
  ("image-converter", ImageConverterTool);
  ("image-compressor", ImageCompressorTool)
].

(** What a request can read or change: the registry and the storage. *)
Record World := {
  TOOLS : Registry;
  files : FS
}.

(** Computations of the route handlers. *)
Abbreviation App := (ST World).

Definition run_io {A} (m : IO A) : App A :=
  fun w =>
    let (r, fs') := m (files w) in
    (r, {| TOOLS := TOOLS w; files := fs' |}).

Definition read_TOOLS : App Registry := fun w => (Ok (TOOLS w), w).

(** [tool_name in TOOLS] *)
Definition has_key {A} (k : string) (d : list (string * A)) : bool :=
  match assoc k d with Some _ => true | None => false end.

Definition get_tool (tool_name : string) : App Tool :=
  (tools <- read_TOOLS ;;
   if negb (has_key tool_name tools)
   then raise (KeyError ("Tool '" +:+ tool_name +:+ "' not found"))
   else match assoc tool_name tools with
        | Some tool => ret tool
        | None => raise (KeyError tool_name)
        end)%st.

Definition list_tools : App (list Metadata) :=
  (tools <- read_TOOLS ;;
   ret (List.map (fun kv => get_metadata (snd kv)) tools))%st.

Definition tool_exists (tool_name : string) : App bool :=
  (tools <- read_TOOLS ;;
   ret (has_key tool_name tools))%st.

(** ** [api/routes_system.py] *)

Record ToolList := {
  tools : list Metadata;
  count : Z
}.

Definition health_check : App (list (string * string)) :=
  ret [("status", "ok")].

Definition list_all_tools : App ToolList :=
  (tools <- list_tools ;;
   ret {| tools := tools; count := Z.of_nat (List.length tools) |})%st.

Definition get_tool_metadata (tool_name : string) : App Metadata :=
  (found <- tool_exists tool_name ;;
   if negb found
   then raise (ToolError ToolNotFoundException ("Tool '" +:+ tool_name +:+ "' not found"))
   else
     tool <- get_tool tool_name ;;
     ret (get_metadata tool))%st.

(** ** [api/routes_tools.py] *)

Definition MEDIA_TYPES : list (string * string) := [
  (".png", "image/png");
  (".jpg", "image/jpeg");
  (".jpeg", "image/jpeg");
  (".gif", "image/gif");
  (".webp", "image/webp");
  (".bmp", "image/bmp");
  (".pdf", "application/pdf");
  (".json", "application/json");
  (".txt", "text/plain");
  (".csv", "text/csv");
  (".zip", "application/zip")
].

(** [Path(filename)] takes a string, or the path of an [os.PathLike]
    object, and raises [TypeError] on any other value. *)
Definition Path (filename : PyVal) : result string :=
  match filename with
  | PyStr filename => Ok filename
  | _ =>
      match Path_of E filename with
      | Some path => Ok path
      | None => Raise (PyException "TypeError" (path_type_error E filename))
      end
  end.

Definition get_media_type_and_extension (filename : PyVal) : result (string * string) :=
  rbind (Path filename) (fun path =>
    let extension := lower (path_suffix E path) in
    let media_type := default "application/octet-stream" (assoc extension MEDIA_TYPES) in
    Ok (media_type, extension)).

(** An [UploadFile] handed to a tool directly: an object with the two
    attributes the tools read. *)
Definition upload_object (filename : string) (content : bytes) : PyVal :=
  PyObject "UploadFile" [("filename", PyStr filename); ("file", PyBytes content)].

(** A value of a parsed form.  [UploadFile] is an instance of the class
    [routes_tools.py] imports from fastapi, the one its [isinstance] test
    accepts.  [FormFile] is a file part as [request.form()] builds it: an
    upload object of the class of starlette, of which the class of
    fastapi is a subclass, so the test does not accept it; it has a file
    name, since a part sent without one is parsed as a plain field.
    [FormField] is a plain string. *)
Inductive FormValue :=
| UploadFile (filename : option string) (content : bytes)
| FormField (value : string)
| FormFile (filename : string) (content : bytes).

(** The request, as far as [run_tool] looks at it: the [content-type]
    header if there is one, what [request.json()] gives and what
    [request.form().items()] gives. *)
Record Request := {
  header_content_type : option string;
  request_json : result json;
  request_form : result (list (string * FormValue))
}.

(** What the handler returns: the dictionary [{"data": result}] or a
    [FileResponse]. *)
Inductive Response :=
| DataDocument (data : PyVal)
| FileResponse (path : PyVal) (filename : PyVal) (media_type : string)
               (headers : list (string * PyVal)).

(** The body of the loop over the parts of the form. *)
Definition process_part (tool_name : string) (input_data : kwargs)
    (key : string) (value : FormValue) : IO kwargs :=
  match value with
  | UploadFile filename content =>
      (file_path <-
         try_except
           (save_uploaded_file content
              (match filename with
               | Some f => if str_truthy f then f else "uploaded_file"
               | None => "uploaded_file"
               end)
              (Some tool_name))
           (fun e =>
              match e with
              | ToolError FileProcessingException message =>
                  raise (HTTPException 400 message)
              | _ => raise e
              end) ;;
       ret (<[key +:+ "_file_path" := PyStr file_path]> input_data))%st
  | FormField value => ret (<[key := PyStr value]> input_data)
  | FormFile filename content =>
      ret (<[key := upload_object filename content]> input_data)
  end.

Fixpoint process_parts (tool_name : string) (parts : list (string * FormValue))
    (input_data : kwargs) : IO kwargs :=
  match parts with
  | [] => ret input_data
  | (key, value) :: rest =>
      (input_data <- process_part tool_name input_data key value ;;
       process_parts tool_name rest input_data)%st
  end.

(** Lines 120 to 124: the upload under [file] serves as [image]. *)
Definition rename_file_path (input_data : kwargs) : kwargs :=
  match input_data !! "image_file_path" with
  | Some _ => input_data
  | None =>
      match input_data !! "file_file_path" with
      | Some file_path =>
          <["image_file_path" := file_path]> (delete "file_file_path" input_data)
      | None => input_data
      end
  end.

(** [list(input_data.keys())], evaluated for the debug line: a value that
    is not a [dict] has no [keys]. *)
Definition keys_of (input_data : PyVal) : result kwargs :=
  match input_data with
  | PyDict items => Ok (dict_of_items items)
  | _ => Raise (PyException "AttributeError"
                  ("'" +:+ type_name input_data +:+ "' object has no attribute 'keys'"))
  end.

(** The first [try] block of [run_tool]. *)
Definition parse_input (tool_name : string) (request : Request) : IO kwargs :=
  let content_type := default "" (header_content_type request) in
  try_except
    (if str_contains "application/json" content_type
     then
       input_data <- lift (request_json request) ;;
       lift (keys_of (of_json input_data))
     else if str_contains "multipart/form-data" content_type
     then
       form_data <- lift (request_form request) ;;
       input_data <- process_parts tool_name form_data ∅ ;;
       ret (rename_file_path input_data)
     else
       raise (HTTPException 400
                "Content-Type must be application/json or multipart/form-data"))%st
    (fun e =>
       match e with
       | HTTPException _ _ => raise e
       | _ => raise (HTTPException 400 "Failed to parse request")
       end).

(** The call of [tool.run] with the dictionary unpacked into keyword
    arguments: a key named [self] collides with the receiver of the
    method, and Python raises [TypeError] before [run] starts. *)
Definition call_run (tool : Tool) (input_data : kwargs) : IO PyVal :=
  match input_data !! "self" with
  | Some _ =>
      raise (PyException "TypeError"
               (class_name tool +:+ ".run() got multiple values for argument 'self'"))
  | None => run tool input_data
  end.

(** The second [try] block. *)
Definition execute_tool (tool : Tool) (input_data : kwargs) : IO PyVal :=
  try_except
    (call_run tool input_data)
    (fun e =>
       match e with
       | ToolError InvalidInputException message => raise (HTTPException 400 message)
       | ToolError FileProcessingException message => raise (HTTPException 400 message)
       | ToolError _ message => raise (HTTPException 500 message)
       | _ => raise (HTTPException 500 "Tool execution failed")
       end).

(** [isinstance(result, tuple) and len(result) == 2] *)
Definition is_pair (v : PyVal) : bool :=
  match v with
  | PyTuple [_; _] => true
  | _ => false
  end.

(** Lines 166 to 183: the media type by the name, then the
    [FileResponse], whose constructor can raise. *)
Definition file_response (file_path filename : PyVal) : result Response :=
  rbind (get_media_type_and_extension filename) (fun mt =>
    match FileResponse_error E file_path filename (fst mt) (snd mt) with
    | Some (cls, text) => Raise (PyException cls text)
    | None =>
        Ok (FileResponse file_path filename (fst mt)
              [("X-File-Extension", PyStr (snd mt)); ("X-File-Name", filename)])
    end).

(** Lines 158 to 190: the response by [tool.output_type]. *)
Definition shape_response (tool : Tool) (result_ : PyVal) : result Response :=
  if String.eqb (output_type tool) "json"
  then Ok (DataDocument result_)
  else if String.eqb (output_type tool) "file"
  then
    match result_ with
    | PyTuple [file_path; filename] => file_response file_path filename
    | _ => Raise (HTTPException 500 "Invalid tool output")
    end
  else Raise (HTTPException 500 "Unknown output type").

Definition run_tool (tool_name : string) (request : Request) : App Response :=
  (found <- tool_exists tool_name ;;
   if negb found
   then raise (ToolError ToolNotFoundException ("Tool '" +:+ tool_name +:+ "' not found"))
   else
     tool <- get_tool tool_name ;;
     input_data <- run_io (parse_input tool_name request) ;;
     result_ <- run_io (execute_tool tool input_data) ;;
     lift (shape_response tool result_))%st.

(** ** The exception handlers of [main.py] *)

(** The dictionary every handler returns. *)
Record ErrorDocument := {
  error : string;
  status_code : Z
}.

(** The handler of the nearest registered class answers. *)
Definition handle_exception (exc : exn) : ErrorDocument :=
  match exc with
  | ToolError ToolNotFoundException message =>
      {| error := message; status_code := 404 |}
  | ToolError _ message =>
      {| error := message; status_code := 500 |}
  | HTTPException status_code detail =>
      {| error := detail; status_code := status_code |}
  | _ =>
      {| error := "An unexpected error occurred"; status_code := 500 |}
  end.

(** [POST /api/system/tools/{tool_name}/run]: what [run_tool] returns,
    or else the dictionary that the handler of [main.py] returns for the
    exception [run_tool] raised.  That dictionary is a plain [dict], not
    a response object; what the framework sends in its place is not
    modelled. *)
Definition post_run (tool_name : string) (request : Request) (w : World)
  : (ErrorDocument + Response) * World :=
  match run_tool tool_name request w with
  | (Ok response, w') => (inr response, w')
  | (Raise exc, w') => (inl (handle_exception exc), w')
  end.

(** The process serving requests to the run endpoint one after the
    other. *)
Fixpoint serve (requests : list (string * Request)) (w : World) : World :=
  match requests with
  | [] => w
  | (tool_name, request) :: rest => serve rest (snd (post_run tool_name request w))
  end.

(** The process after start-up: the three tools, and whatever is on disk. *)
Definition initial_world (fs : FS) : World :=
  {| TOOLS := initial_TOOLS; files := fs |}.

End Platform.

(** ** A concrete environment

    A POSIX host on which the operating system refuses nothing, for
    ASCII inputs; the validators accept what the schemas describe. *)

Definition posix_suffix (filename : string) : string :=
  let n := String.length filename in
  match String.index 0 "." (String.rev filename) with
  | Some i =>
      let dot := (n - 1 - i)%nat in
      if ((0 <? dot) && (dot <? n - 1))%nat
      then String.substring dot (n - dot) filename
      else ""
  | None => ""
  end.

Definition posix_env (s : Settings) : Env := {|
  settings := s;
  unicode_word := fun _ => false;
  unicode_lower := fun x => x;
  unicode_upper := fun x => x;
  str_size_mb := fun n =>
    if (n =? 4)%Z then "3.814697265625e-06" else pretty (n / 1048576) +:+ ".0";
  repr_str := fun x => "'" +:+ x +:+ "'";
  py_hash := fun v =>
    match v with
    | PyStr x => Ok (Z.of_nat (String.length x) * 31 + 7)
    | _ => Ok 0
    end;
  path_join := fun a b => a +:+ "/" +:+ b;
  path_suffix := posix_suffix;
  Path_of := fun v =>
    match v with
    | PyObject _ attrs =>
        match assoc "__fspath__" attrs with
        | Some (PyStr path) => Some path
        | _ => None
        end
    | _ => None
    end;
  path_type_error := fun v =>
    "expected str, bytes or os.PathLike object, not " +:+ type_name v;
  FileResponse_error := fun _ filename _ _ =>
    match filename with
    | PyStr _ => None
    | _ => Some ("AttributeError",
                 "'" +:+ type_name filename +:+ "' object has no attribute 'encode'")
    end;
  splitext := fun v =>
    match v with
    | PyStr x =>
        let ext := posix_suffix x in
        Ok (String.substring 0 (String.length x - String.length ext) x, ext)
    | _ => Raise (PyException "TypeError"
                    ("expected str, bytes or os.PathLike object, not " +:+ type_name v))
    end;
  mkdir_error := fun _ _ => None;
  write_error := fun _ _ => None;
  QRGeneratorInput := fun kw =>
    match kw !! "data" with
    | Some (PyStr x) =>
        if ((1 <=? String.length x) && (String.length x <=? 2953))%nat
        then Ok x
        else Raise (PyException "ValidationError" "data: string length out of range")
    | _ => Raise (PyException "ValidationError" "data: a string is required")
    end;
  ImageConverterInput := fun kw =>
    match kw !! "target_format" with
    | Some (PyStr x) =>
        if existsb (String.eqb x) ["png"; "jpg"; "jpeg"; "webp"; "gif"; "bmp"]
        then Ok (x, 85)
        else Raise (PyException "ValidationError" "target_format: no match for the pattern")
    | _ => Raise (PyException "ValidationError" "target_format: a string is required")
    end;
  ImageCompressorInput := fun kw =>
    match kw !! "quality" with
    | Some (PyInt q) =>
        if ((1 <=? q) && (q <=? 100))%Z
        then Ok q
        else Raise (PyException "ValidationError" "quality: out of range")
    | _ => Ok 75
    end;
  qr_make_image := fun data => Ok [Byte.x89; Byte.x50; Byte.x4e; Byte.x47];
  Image_open := fun v =>
    match v with
    | PyBytes b => Ok {| im_mode := "RGB"; im_size := (1, 1); im_data := b |}
    | _ => Raise (PyException "UnidentifiedImageError" "cannot identify image file")
    end;
  Image_new := fun m sz => {| im_mode := m; im_size := sz; im_data := [] |};
  Image_split := fun im => [im];
  Image_paste := fun bg im _ =>
    Ok {| im_mode := im_mode bg; im_size := im_size bg; im_data := im_data im |};
  Image_convert := fun im m =>
    Ok {| im_mode := m; im_size := im_size im; im_data := im_data im |};
  Image_encode := fun im _ _ _ => Ok (im_data im)
|}.

(** As started without overrides, and with an upload limit of four bytes. *)
Definition default_env : Env := posix_env default_settings.

Definition small_env : Env :=
  posix_env {|
    APP_NAME := "Tool Execution Platform";
    DEBUG := true;
    MAX_FILE_SIZE := 4;
    TEMP_DIR := "/tmp/tool-execution";
    ALLOWED_IMAGE_FORMATS := ["png"; "jpg"; "jpeg"; "webp"; "gif"; "bmp"]
  |}.


(** ** Requests and tools used as examples *)

Definition png_bytes : bytes := [Byte.x89; Byte.x50; Byte.x4e; Byte.x47].

(** A form with a file part named [file] and a field [target_format]. *)
Definition file_upload_request : Request := {|
  header_content_type := Some "multipart/form-data; boundary=frontier";
  request_json := Raise (PyException "JSONDecodeError" "Expecting value: line 1 column 1 (char 0)");
  request_form := Ok [("file", UploadFile (Some "photo.png") png_bytes);
                      ("target_format", FormField "jpg")]
|}.

(** A form with file parts named [image] and [file]. *)
Definition two_files_request : Request := {|
  header_content_type := Some "multipart/form-data; boundary=frontier";
  request_json := Raise (PyException "JSONDecodeError" "Expecting value: line 1 column 1 (char 0)");
  request_form := Ok [("image", UploadFile (Some "photo.png") png_bytes);
                      ("file", UploadFile (Some "other.png") png_bytes)]
|}.

(** A form with one file part named [image], sent as [photo.png]. *)
Definition image_upload_request (content : bytes) : Request := {|
  header_content_type := Some "multipart/form-data; boundary=frontier";
  request_json := Raise (PyException "JSONDecodeError" "Expecting value: line 1 column 1 (char 0)");
  request_form := Ok [("image", UploadFile (Some "photo.png") content);
                      ("target_format", FormField "png")]
|}.

Definition gif_bytes : bytes := [Byte.x47; Byte.x49; Byte.x46; Byte.x38].

Definition json_request (document : json) : Request := {|
  header_content_type := Some "application/json";
  request_json := Ok document;
  request_form := Ok []
|}.

(** A tool of kind [file] that returns a path alone, and a tool of kind
    [json] that returns an instance of [object]. *)
Definition path_only_tool : Tool := {|
  class_name := "PathOnlyTool";
  name := "path-only";
  description := "Return the path of a stored file";
  version := "1.0.0";
  input_schema := PyDict [("type", PyStr "object")];
  output_type := "file";
  run := fun _ => ret (PyStr "/tmp/tool-execution/path-only/out.png")
|}.

Definition opaque_tool : Tool := {|
  class_name := "OpaqueTool";
  name := "opaque";
  description := "Return an object";
  version := "1.0.0";
  input_schema := PyDict [("type", PyStr "object")];
  output_type := "json";
  run := fun _ => ret (PyObject "object" [])
|}.

Definition example_world : World := {|
  TOOLS := [("path-only", path_only_tool); ("opaque", opaque_tool)];
  files := ∅
|}.

(** ** Further examples *)

(** An exception of [ToolExecutionException] or of one of its
    subclasses. *)
Definition is_tool_error (e : exn) : bool :=
  match e with
  | ToolError _ _ => true
  | _ => false
  end.

Definition is_http_exception (e : exn) : bool :=
  match e with
  | HTTPException _ _ => true
  | _ => false
  end.

(** A JSON document whose top level is an object. *)
Definition is_json_object (j : json) : bool :=
  match j with
  | JObj _ => true
  | _ => false
  end.

(** A string value. *)
Definition is_str (v : PyVal) : bool :=
  match v with
  | PyStr _ => true
  | _ => false
  end.

(** The same host with a storage that cannot be written. *)
Definition read_only (E : Env) : Env := {|
  settings := settings E;
  unicode_word := unicode_word E;
  unicode_lower := unicode_lower E;
  unicode_upper := unicode_upper E;
  str_size_mb := str_size_mb E;
  repr_str := repr_str E;
  py_hash := py_hash E;
  path_join := path_join E;
  path_suffix := path_suffix E;
  Path_of := Path_of E;
  path_type_error := path_type_error E;
  FileResponse_error := FileResponse_error E;
  splitext := splitext E;
  mkdir_error := mkdir_error E;
  write_error := fun _ _ =>
    Some (PyException "PermissionError" "[Errno 13] Permission denied");
  QRGeneratorInput := QRGeneratorInput E;
  ImageConverterInput := ImageConverterInput E;
  ImageCompressorInput := ImageCompressorInput E;
  qr_make_image := qr_make_image E;
  Image_open := Image_open E;
  Image_new := Image_new E;
  Image_split := Image_split E;
  Image_paste := Image_paste E;
  Image_convert := Image_convert E;
  Image_encode := Image_encode E
|}.

(** The same host with a QR library that finds the data too long. *)
Definition qr_overflowing (E : Env) : Env := {|
  settings := settings E;
  unicode_word := unicode_word E;
  unicode_lower := unicode_lower E;
  unicode_upper := unicode_upper E;
  str_size_mb := str_size_mb E;
  repr_str := repr_str E;
  py_hash := py_hash E;
  path_join := path_join E;
  path_suffix := path_suffix E;
  Path_of := Path_of E;
  path_type_error := path_type_error E;
  FileResponse_error := FileResponse_error E;
  splitext := splitext E;
  mkdir_error := mkdir_error E;
  write_error := write_error E;
  QRGeneratorInput := QRGeneratorInput E;
  ImageConverterInput := ImageConverterInput E;
  ImageCompressorInput := ImageCompressorInput E;
  qr_make_image := fun _ => Raise (PyException "DataOverflowError" "Code length overflow");
  Image_open := Image_open E;
  Image_new := Image_new E;
  Image_split := Image_split E;
  Image_paste := Image_paste E;
  Image_convert := Image_convert E;
  Image_encode := Image_encode E
|}.

(** The same host with an image library that looks at what it is given:
    it opens only what starts as a PNG file, and it knows its encoders by
    the names [PNG], [JPEG], [WEBP], [GIF] and [BMP], in any letter
    case. *)
Definition strict_pillow (E : Env) : Env := {|
  settings := settings E;
  unicode_word := unicode_word E;
  unicode_lower := unicode_lower E;
  unicode_upper := unicode_upper E;
  str_size_mb := str_size_mb E;
  repr_str := repr_str E;
  py_hash := py_hash E;
  path_join := path_join E;
  path_suffix := path_suffix E;
  Path_of := Path_of E;
  path_type_error := path_type_error E;
  FileResponse_error := FileResponse_error E;
  splitext := splitext E;
  mkdir_error := mkdir_error E;
  write_error := write_error E;
  QRGeneratorInput := QRGeneratorInput E;
  ImageConverterInput := ImageConverterInput E;
  ImageCompressorInput := ImageCompressorInput E;
  qr_make_image := qr_make_image E;
  Image_open := fun v =>
    match v with
    | PyBytes (Byte.x89 :: Byte.x50 :: Byte.x4e :: Byte.x47 :: rest) =>
        Ok {| im_mode := "RGB"; im_size := (1, 1);
              im_data := Byte.x89 :: Byte.x50 :: Byte.x4e :: Byte.x47 :: rest |}
    | _ => Raise (PyException "UnidentifiedImageError"
                    "cannot identify image file <tempfile.SpooledTemporaryFile object at 0x7f3c5a1b2d40>")
    end;
  Image_new := Image_new E;
  Image_split := Image_split E;
  Image_paste := Image_paste E;
  Image_convert := Image_convert E;
  Image_encode := fun im format _ _ =>
    if str_in (upper E format) ["PNG"; "JPEG"; "WEBP"; "GIF"; "BMP"]
    then Ok (im_data im)
    else Raise (KeyError (upper E format))
|}.

(** A form as [request.form()] builds it: a file part named
    [image_file_path] and the field [target_format]. *)
Definition image_form_request (filename : string) (content : bytes) (target_format : string)
  : Request := {|
  header_content_type := Some "multipart/form-data; boundary=frontier";
  request_json := Raise (PyException "JSONDecodeError" "Expecting value: line 1 column 1 (char 0)");
  request_form := Ok [("image_file_path", FormFile filename content);
                      ("target_format", FormField target_format)]
|}.


(** A tool that raises an exception of no class of the platform, and a
    tool of kind [file] whose pair holds a number where the name should
    be. *)
Definition crashing_tool : Tool := {|
  class_name := "CrashingTool";
  name := "crashing";
  description := "Fail on a missing table";
  version := "1.0.0";
  input_schema := PyDict [("type", PyStr "object")];
  output_type := "json";
  run := fun _ => raise (PyException "RuntimeError" "no such table: jobs")
|}.

Definition numbered_tool : Tool := {|
  class_name := "NumberedTool";
  name := "numbered";
  description := "Return a path and a number";
  version := "1.0.0";
  input_schema := PyDict [("type", PyStr "object")];
  output_type := "file";
  run := fun _ => ret (PyTuple [PyStr "/tmp/tool-execution/numbered/7"; PyInt 7])
|}.

Definition faulty_world : World := {|
  TOOLS := [("crashing", crashing_tool); ("numbered", numbered_tool)];
  files := ∅
|}.

(** A form as [request.form()] builds it, with two file parts, the
    second one byte over four. *)
Definition oversize_second_request : Request := {|
  header_content_type := Some "multipart/form-data; boundary=frontier";
  request_json := Raise (PyException "JSONDecodeError" "Expecting value: line 1 column 1 (char 0)");
  request_form := Ok [("image", FormFile "photo.png" png_bytes);
                      ("mask", FormFile "mask.png"
                                 [Byte.x89; Byte.x50; Byte.x4e; Byte.x47; Byte.x0d])]
|}.

(** * Properties *)

(** ** Strings *)

Lemma str_filter_drops (keep : ascii -> bool) (c : ascii) (s : string) :
  keep c = false -> str_contains (String c "") (str_filter keep s) = false.
Proof.
  intros Hc. induction s as [|a rest IH]; [reflexivity|].
  simpl. destruct (keep a) eqn:Ha; [|exact IH].
  simpl. destruct (Ascii.eqb c a) eqn:Hca.
  - apply Ascii.eqb_eq in Hca. congruence.
  - exact IH.
Qed.

(** ** File service *)

Section FileServiceFacts.

Context (E : Env).

Lemma safe_char_slash : safe_char E "/" = false.
Proof. reflexivity. Qed.

Lemma safe_char_backslash : safe_char E "\" = false.
Proof. reflexivity. Qed.

(** Whatever [clean_filename] returns is non-empty and has no path
    separator. *)
Lemma clean_filename_no_separator (filename cleaned : string) :
  clean_filename E filename = Ok cleaned ->
  cleaned <> ""
  /\ str_contains "/" cleaned = false
  /\ str_contains "\" cleaned = false.
Proof.
  unfold clean_filename.
  destruct (str_truthy filename); simpl; [|discriminate].
  set (kept := str_filter (safe_char E) _).
  destruct kept as [|c rest] eqn:Hkept; simpl; [discriminate|].
  intros [= <-]. split; [discriminate|].
  rewrite <- Hkept. unfold kept.
  split; apply str_filter_drops; [apply safe_char_slash | apply safe_char_backslash].
Qed.

Lemma validate_file_size_ok (file_size : Z) :
  file_size <= MAX_FILE_SIZE (settings E) -> validate_file_size E file_size = Ok tt.
Proof.
  intros H. unfold validate_file_size.
  destruct (Z.gtb_spec file_size (MAX_FILE_SIZE (settings E))); [lia | reflexivity].
Qed.

Lemma validate_file_size_over (file_size : Z) :
  file_size > MAX_FILE_SIZE (settings E) ->
  validate_file_size E file_size =
    Raise (ToolError FileProcessingException
             ("File size exceeds maximum of "
              +:+ str_size_mb E (MAX_FILE_SIZE (settings E)) +:+ "MB")).
Proof.
  intros H. unfold validate_file_size.
  destruct (Z.gtb_spec file_size (MAX_FILE_SIZE (settings E))); [reflexivity | lia].
Qed.

(** What [save_uploaded_file] does, case by case on its outcome. *)
Lemma save_uploaded_file_inv
    (file_content : bytes) (original_filename : string) (subfolder : option string)
    (fs fs' : FS) (r : result string) :
  save_uploaded_file E file_content original_filename subfolder fs = (r, fs') ->
  match r with
  | Ok file_path =>
      exists clean_name,
        clean_filename E original_filename = Ok clean_name
        /\ file_path = path_join E (save_dir_of E subfolder) clean_name
        /\ len file_content <= MAX_FILE_SIZE (settings E)
        /\ fs' = <[file_path := file_content]> fs
  | Raise e => fs' = fs /\ exists message, e = ToolError FileProcessingException message
  end.
Proof.
  unfold save_uploaded_file, try_except, bind, lift, ret, raise,
    validate_file_size, write_bytes, mkdir, save_dir_of.
  destruct (Z.gtb_spec (len file_content) (MAX_FILE_SIZE (settings E))) as [Hgt|Hle].
  { intros [= <- <-]. eauto. }
  destruct (clean_filename E original_filename) as [clean_name|e] eqn:Hclean.
  2:{ unfold clean_filename in Hclean.
      repeat case_match; simplify_eq; intros [= <- <-]; eauto. }
  intros H.
  repeat case_match; simplify_eq; eauto 10.
Qed.

End FileServiceFacts.

(** ** Registry *)

Lemma has_key_assoc {A} (k : string) (d : list (string * A)) :
  has_key k d = true <-> exists a, assoc k d = Some a.
Proof.
  unfold has_key. destruct (assoc k d) as [a|].
  - split; [eauto | reflexivity].
  - split; [discriminate | intros [a [=]]].
Qed.

Lemma tool_exists_run (tool_name : string) (w : World) :
  tool_exists tool_name w = (Ok (has_key tool_name (TOOLS w)), w).
Proof. reflexivity. Qed.

Lemma get_tool_found (tool_name : string) (tool : Tool) (w : World) :
  assoc tool_name (TOOLS w) = Some tool ->
  get_tool tool_name w = (Ok tool, w).
Proof.
  intros H. unfold get_tool, read_TOOLS, bind, has_key, ret. simpl.
  rewrite H. reflexivity.
Qed.

Lemma get_tool_missing (tool_name : string) (w : World) :
  assoc tool_name (TOOLS w) = None ->
  get_tool tool_name w = (Raise (KeyError ("Tool '" +:+ tool_name +:+ "' not found")), w).
Proof.
  intros H. unfold get_tool, read_TOOLS, bind, has_key, raise. simpl.
  rewrite H. reflexivity.
Qed.

Lemma list_tools_run (w : World) :
  list_tools w = (Ok (List.map (fun kv => get_metadata (snd kv)) (TOOLS w)), w).
Proof. reflexivity. Qed.

(** The keys of the registry the process starts with. *)
Lemma initial_keys (E : Env) :
  List.map fst (initial_TOOLS E) = ["qr-generator"; "image-converter"; "image-compressor"].
Proof. reflexivity. Qed.

Lemma assoc_initial (E : Env) (tool_name : string) :
  match assoc tool_name (initial_TOOLS E) with
  | Some tool => In tool_name (List.map fst (initial_TOOLS E)) /\ name tool = tool_name
  | None => ~ In tool_name (List.map fst (initial_TOOLS E))
  end.
Proof.
  unfold initial_TOOLS. simpl.
  destruct (String.eqb_spec tool_name "qr-generator") as [->|H1]; [simpl; auto|].
  destruct (String.eqb_spec tool_name "image-converter") as [->|H2]; [simpl; auto|].
  destruct (String.eqb_spec tool_name "image-compressor") as [->|H3]; [simpl; auto|].
  intros [H|[H|[H|[]]]]; congruence.
Qed.

(** The three tools pass the checks of [BaseTool.__init__], so building
    [TOOLS] at import time raises nothing. *)
Lemma initial_tools_pass_init (E : Env) :
  Forall (fun kv => BaseTool_init (snd kv) = Ok tt) (initial_TOOLS E).
Proof. repeat constructor. Qed.

(** ** Dispatcher *)

Section DispatchFacts.

Context (E : Env).

Lemma run_tool_unknown (tool_name : string) (request : Request) (w : World) :
  assoc tool_name (TOOLS w) = None ->
  run_tool E tool_name request w =
    (Raise (ToolError ToolNotFoundException ("Tool '" +:+ tool_name +:+ "' not found")), w).
Proof.
  intros H. unfold run_tool, bind. rewrite tool_exists_run.
  unfold has_key. rewrite H. reflexivity.
Qed.

(** A registered tool: parse, execute, shape, in that order; the first
    failure ends the request. *)
Lemma run_tool_known (tool_name : string) (tool : Tool) (request : Request) (w : World) :
  assoc tool_name (TOOLS w) = Some tool ->
  run_tool E tool_name request w =
    match parse_input E tool_name request (files w) with
    | (Raise e, fs1) => (Raise e, {| TOOLS := TOOLS w; files := fs1 |})
    | (Ok input_data, fs1) =>
        match execute_tool tool input_data fs1 with
        | (Raise e, fs2) => (Raise e, {| TOOLS := TOOLS w; files := fs2 |})
        | (Ok result_, fs2) =>
            (shape_response E tool result_, {| TOOLS := TOOLS w; files := fs2 |})
        end
    end.
Proof.
  intros H. unfold run_tool, bind. rewrite tool_exists_run.
  unfold has_key. rewrite H. simpl.
  rewrite (get_tool_found _ _ _ H).
  unfold run_io, lift. simpl.
  destruct (parse_input E tool_name request (files w)) as [[input_data|e] fs1]; [|reflexivity].
  simpl. destruct (execute_tool tool input_data fs1) as [[result_|e] fs2]; reflexivity.
Qed.

(** No request changes the registry. *)
Lemma run_tool_TOOLS (tool_name : string) (request : Request) (w : World) :
  TOOLS (snd (run_tool E tool_name request w)) = TOOLS w.
Proof.
  destruct (assoc tool_name (TOOLS w)) as [tool|] eqn:H.
  - rewrite (run_tool_known _ _ _ _ H).
    destruct (parse_input E tool_name request (files w)) as [[input_data|e] fs1]; [|reflexivity].
    destruct (execute_tool tool input_data fs1) as [[result_|e] fs2]; reflexivity.
  - rewrite (run_tool_unknown _ _ _ H). reflexivity.
Qed.

Lemma post_run_snd (tool_name : string) (request : Request) (w : World) :
  snd (post_run E tool_name request w) = snd (run_tool E tool_name request w).
Proof.
  unfold post_run.
  destruct (run_tool E tool_name request w) as [[response|exc] w']; reflexivity.
Qed.

Lemma serve_TOOLS (requests : list (string * Request)) (w : World) :
  TOOLS (serve E requests w) = TOOLS w.
Proof.
  revert w. induction requests as [|[tool_name request] rest IH]; intros w; [reflexivity|].
  simpl. rewrite IH, post_run_snd. apply run_tool_TOOLS.
Qed.

End DispatchFacts.

(** ** Uploads *)

Section UploadFacts.

Context (E : Env).

(** An upload within the limit, with a name that cleans to something, on
    a system that refuses nothing, is stored and its path returned. *)
Lemma save_uploaded_file_ok
    (file_content : bytes) (original_filename clean_name : string)
    (subfolder : option string) (fs : FS) :
  len file_content <= MAX_FILE_SIZE (settings E) ->
  clean_filename E original_filename = Ok clean_name ->
  mkdir_error E fs (save_dir_of E subfolder) = None ->
  write_error E fs (path_join E (save_dir_of E subfolder) clean_name) = None ->
  save_uploaded_file E file_content original_filename subfolder fs =
    (Ok (path_join E (save_dir_of E subfolder) clean_name),
     <[path_join E (save_dir_of E subfolder) clean_name := file_content]> fs).
Proof.
  intros Hsize Hclean Hmkdir Hwrite.
  unfold save_uploaded_file, try_except, bind, lift, ret.
  rewrite (validate_file_size_ok E _ Hsize), Hclean.
  unfold save_dir_of in *.
  destruct subfolder as [sub|]; [destruct (str_truthy sub)|];
    unfold mkdir, write_bytes; rewrite ?Hmkdir, Hwrite; reflexivity.
Qed.

(** An upload over the limit is refused before its name is looked at,
    and nothing is written. *)
Lemma save_uploaded_file_too_large
    (file_content : bytes) (original_filename : string)
    (subfolder : option string) (fs : FS) :
  len file_content > MAX_FILE_SIZE (settings E) ->
  save_uploaded_file E file_content original_filename subfolder fs =
    (Raise (ToolError FileProcessingException
              ("File size exceeds maximum of "
               +:+ str_size_mb E (MAX_FILE_SIZE (settings E)) +:+ "MB")), fs).
Proof.
  intros Hsize.
  unfold save_uploaded_file, try_except, bind, lift.
  rewrite (validate_file_size_over E _ Hsize). reflexivity.
Qed.

End UploadFacts.

(** ** The form loop *)

Lemma rename_file_path_present (input_data : kwargs) :
  is_Some (input_data !! "image_file_path") -> rename_file_path input_data = input_data.
Proof. intros [v Hv]. unfold rename_file_path. rewrite Hv. reflexivity. Qed.

Lemma rename_file_path_moves (input_data : kwargs) (file_path : PyVal) :
  input_data !! "image_file_path" = None ->
  input_data !! "file_file_path" = Some file_path ->
  rename_file_path input_data =
    <["image_file_path" := file_path]> (delete "file_file_path" input_data).
Proof. intros Hi Hf. unfold rename_file_path. rewrite Hi, Hf. reflexivity. Qed.

(** ** Executing a tool *)

Lemma call_run_without_self (tool : Tool) (input_data : kwargs) :
  input_data !! "self" = None -> call_run tool input_data = run tool input_data.
Proof. intros H. unfold call_run. rewrite H. reflexivity. Qed.

Lemma execute_tool_returns (tool : Tool) (input_data : kwargs) (v : PyVal) (fs fs' : FS) :
  call_run tool input_data fs = (Ok v, fs') ->
  execute_tool tool input_data fs = (Ok v, fs').
Proof. intros H. unfold execute_tool, try_except. rewrite H. reflexivity. Qed.

Lemma execute_tool_raises (tool : Tool) (input_data : kwargs) (e : exn) (fs fs' : FS) :
  call_run tool input_data fs = (Raise e, fs') ->
  execute_tool tool input_data fs =
    (Raise match e with
           | ToolError InvalidInputException message => HTTPException 400 message
           | ToolError FileProcessingException message => HTTPException 400 message
           | ToolError _ message => HTTPException 500 message
           | _ => HTTPException 500 "Tool execution failed"
           end, fs').
Proof.
  intros H. unfold execute_tool, try_except. rewrite H.
  destruct e as [[] ?| | |]; reflexivity.
Qed.

(** ** What the normaliser can pass to a tool *)

Lemma of_json_not_object (j : json) : not_object (of_json j).
Proof. destruct j; exact I. Qed.

Lemma fold_insert_no_objects (items : list (string * PyVal)) (d : kwargs) :
  Forall (fun kv => not_object (snd kv)) items ->
  no_objects d ->
  no_objects (fold_left (fun d kv => <[fst kv := snd kv]> d) items d).
Proof.
  revert d. induction items as [|[k v] rest IH]; intros d Hitems Hd; [exact Hd|].
  inversion Hitems as [|? ? Hv Hrest]; subst. simpl.
  apply IH; [exact Hrest|]. apply map_Forall_insert_2; assumption.
Qed.

Lemma keys_of_json_no_objects (j : json) (input_data : kwargs) :
  keys_of (of_json j) = Ok input_data -> no_objects input_data.
Proof.
  destruct j; try discriminate. simpl. intros [= <-].
  apply fold_insert_no_objects; [|apply map_Forall_empty].
  apply List.Forall_forall. intros [k v] Hin.
  apply in_map_iff in Hin as ([k' j'] & [= <- <-] & _). apply of_json_not_object.
Qed.

Section NormaliserFacts.

Context (E : Env).

(** A JSON body cannot put an [UploadFile], or any other object, among
    the keyword arguments. *)
Lemma parse_json_no_objects
    (tool_name : string) (request : Request) (input_data : kwargs) (fs fs' : FS) :
  str_contains "application/json" (default "" (header_content_type request)) = true ->
  parse_input E tool_name request fs = (Ok input_data, fs') ->
  no_objects input_data.
Proof.
  intros Hjson. unfold parse_input, try_except, bind, lift, ret, raise.
  rewrite Hjson.
  destruct (request_json request) as [j|e]; [|destruct e; discriminate].
  destruct (keys_of (of_json j)) as [d|e] eqn:Hkeys; [|destruct e; discriminate].
  intros [= <- <-]. exact (keys_of_json_no_objects _ _ Hkeys).
Qed.

(** ** The image converter on such arguments *)

Lemma getattr_not_object (v : PyVal) (attr : string) :
  not_object v ->
  getattr v attr =
    Raise (PyException "AttributeError"
             ("'" +:+ type_name v +:+ "' object has no attribute '" +:+ attr +:+ "'")).
Proof. destruct v; simpl; intros H; [reflexivity..|contradiction]. Qed.

Lemma convert_image_not_object
    (input_path : PyVal) (target_format : string) (quality : Z) (fs : FS) :
  not_object input_path ->
  convert_image E input_path target_format quality fs =
    (Raise (if str_in (lower E target_format) (ALLOWED_IMAGE_FORMATS (settings E))
            then PyException "AttributeError"
                   ("'" +:+ type_name input_path +:+ "' object has no attribute 'file'")
            else PyException "ValueError" ("Format " +:+ target_format +:+ " not allowed")),
     fs).
Proof.
  intros H. unfold convert_image, try_except, bind, lift, raise.
  destruct (str_in (lower E target_format) (ALLOWED_IMAGE_FORMATS (settings E))); simpl.
  - rewrite (getattr_not_object _ _ H). reflexivity.
  - reflexivity.
Qed.

Lemma converter_run_not_object (input_data : kwargs) (fs : FS) :
  no_objects input_data ->
  exists message,
    run (ImageConverterTool E) input_data fs =
      (Raise (ToolError ToolExecutionException message), fs)
    \/ run (ImageConverterTool E) input_data fs =
         (Raise (ToolError InvalidInputException message), fs).
Proof.
  intros H. simpl.
  assert (Hv : not_object (default PyNone (input_data !! "image_file_path"))).
  { destruct (input_data !! "image_file_path") as [v|] eqn:Hlook; [|exact I].
    exact (map_Forall_lookup_1 _ _ _ _ H Hlook). }
  destruct (truthy (default PyNone (input_data !! "image_file_path"))); simpl.
  2:{ eexists. left. reflexivity. }
  unfold try_except, bind, lift, raise, ret.
  destruct (ImageConverterInput E (delete "image_file_path" input_data)) as [[fmt q]|e].
  - simpl. rewrite (convert_image_not_object _ _ _ _ Hv). eexists. left. reflexivity.
  - eexists. right. reflexivity.
Qed.

End NormaliserFacts.

(** ** No file is removed *)

Lemma keeps_ret {A} (a : A) : keeps_files (ret a).
Proof. intros fs path H. exact H. Qed.

Lemma keeps_raise {A} (e : exn) : keeps_files (@raise FS A e).
Proof. intros fs path H. exact H. Qed.

Lemma keeps_lift {A} (r : result A) : keeps_files (lift r).
Proof. intros fs path H. exact H. Qed.

Lemma keeps_bind {A B} (m : IO A) (k : A -> IO B) :
  keeps_files m -> (forall a, keeps_files (k a)) -> keeps_files (bind m k).
Proof.
  intros Hm Hk fs path H. unfold bind.
  specialize (Hm fs path H).
  destruct (m fs) as [[a|e] fs1]; simpl in *; [apply Hk; exact Hm | exact Hm].
Qed.

Lemma keeps_try_except {A} (body : IO A) (handler : exn -> IO A) :
  keeps_files body -> (forall e, keeps_files (handler e)) ->
  keeps_files (try_except body handler).
Proof.
  intros Hb Hh fs path H. unfold try_except.
  specialize (Hb fs path H).
  destruct (body fs) as [[a|e] fs1]; simpl in *; [exact Hb | apply Hh; exact Hb].
Qed.

Lemma keeps_mkdir (E : Env) (dir : string) : keeps_files (mkdir E dir).
Proof.
  intros fs path H. unfold mkdir.
  destruct (mkdir_error E fs dir); exact H.
Qed.

Lemma keeps_write_bytes (E : Env) (path : string) (content : bytes) :
  keeps_files (write_bytes E path content).
Proof.
  intros fs p H. unfold write_bytes.
  destruct (write_error E fs path); simpl; [exact H|].
  rewrite lookup_insert. destruct (decide (path = p)); [eauto | exact H].
Qed.

Create HintDb keeps discriminated.
#[export] Hint Resolve keeps_ret keeps_raise keeps_lift keeps_mkdir keeps_write_bytes : keeps.

(** Walks down a computation built from the combinators above. *)
Ltac keeps :=
  repeat first
    [ match goal with
      | |- keeps_files (bind _ _) => apply keeps_bind
      | |- keeps_files (try_except _ _) => apply keeps_try_except
      end
    | solve [auto with keeps]
    | match goal with |- forall _, _ => intro end
    | progress cbv zeta
    | progress case_match ].

Section KeepsFacts.

Context (E : Env).

Lemma keeps_save_uploaded_file
    (file_content : bytes) (original_filename : string) (subfolder : option string) :
  keeps_files (save_uploaded_file E file_content original_filename subfolder).
Proof. unfold save_uploaded_file. keeps. Qed.

Lemma keeps_generate_output_path (tool_name filename : string) (extension : option string) :
  keeps_files (generate_output_path E tool_name filename extension).
Proof. unfold generate_output_path. keeps. Qed.

#[local] Hint Resolve keeps_save_uploaded_file keeps_generate_output_path : keeps.

Lemma keeps_generate_qr_code (data : string) : keeps_files (generate_qr_code E data).
Proof. unfold generate_qr_code. keeps. Qed.

Lemma keeps_convert_image (input_path : PyVal) (target_format : string) (quality : Z) :
  keeps_files (convert_image E input_path target_format quality).
Proof. unfold convert_image. keeps. Qed.

Lemma keeps_compress_image (input_path : PyVal) (quality : Z) :
  keeps_files (compress_image E input_path quality).
Proof. unfold compress_image. keeps. Qed.

#[local] Hint Resolve keeps_generate_qr_code keeps_convert_image keeps_compress_image : keeps.

Lemma keeps_initial_tools :
  Forall (fun kv => forall input_data, keeps_files (run (snd kv) input_data)) (initial_TOOLS E).
Proof.
  unfold initial_TOOLS. repeat constructor; intros input_data; simpl; keeps.
Qed.

Lemma keeps_process_parts (tool_name : string) (parts : list (string * FormValue))
    (input_data : kwargs) :
  keeps_files (process_parts E tool_name parts input_data).
Proof.
  revert input_data. induction parts as [|[key value] rest IH]; intros input_data; simpl.
  - keeps.
  - apply keeps_bind; [unfold process_part; keeps | exact IH].
Qed.

#[local] Hint Resolve keeps_process_parts : keeps.

Lemma keeps_parse_input (tool_name : string) (request : Request) :
  keeps_files (parse_input E tool_name request).
Proof. unfold parse_input. keeps. Qed.

Lemma keeps_execute_tool (tool : Tool) (input_data : kwargs) :
  (forall kw, keeps_files (run tool kw)) -> keeps_files (execute_tool tool input_data).
Proof. intros H. unfold execute_tool, call_run. keeps. Qed.

Lemma assoc_In {A} (k : string) (a : A) (l : list (string * A)) :
  assoc k l = Some a -> In (k, a) l.
Proof.
  induction l as [|[k' a'] rest IH]; [discriminate|]. simpl.
  destruct (String.eqb_spec k k') as [->|Hne].
  - intros [= ->]. left. reflexivity.
  - intros H. right. exact (IH H).
Qed.

(** A request to the run endpoint removes no file, when no registered
    tool does. *)
Lemma run_tool_keeps_files (tool_name : string) (request : Request) (w : World) (path : string) :
  Forall (fun kv => forall input_data, keeps_files (run (snd kv) input_data)) (TOOLS w) ->
  is_Some (files w !! path) ->
  is_Some (files (snd (run_tool E tool_name request w)) !! path).
Proof.
  intros Htools Hpath.
  destruct (assoc tool_name (TOOLS w)) as [tool|] eqn:Hlook.
  2:{ rewrite (run_tool_unknown E _ request _ Hlook). exact Hpath. }
  rewrite (run_tool_known E _ _ request _ Hlook).
  assert (Htool : forall kw, keeps_files (run tool kw)).
  { apply assoc_In in Hlook. rewrite List.Forall_forall in Htools. exact (Htools _ Hlook). }
  pose proof (keeps_parse_input tool_name request (files w) path Hpath) as H1.
  destruct (parse_input E tool_name request (files w)) as [[input_data|e] fs1]; [|exact H1].
  pose proof (keeps_execute_tool tool input_data Htool fs1 path H1) as H2.
  destruct (execute_tool tool input_data fs1) as [[result_|e] fs2]; exact H2.
Qed.

Lemma serve_keeps_files (requests : list (string * Request)) (w : World) (path : string) :
  Forall (fun kv => forall input_data, keeps_files (run (snd kv) input_data)) (TOOLS w) ->
  is_Some (files w !! path) ->
  is_Some (files (serve E requests w) !! path).
Proof.
  revert w. induction requests as [|[tool_name request] rest IH]; intros w Htools Hpath;
    [exact Hpath|].
  simpl. apply IH; rewrite post_run_snd.
  - rewrite run_tool_TOOLS. exact Htools.
  - apply run_tool_keeps_files; assumption.
Qed.

End KeepsFacts.

(** ** QR codes *)

Lemma generate_qr_code_inv (E : Env) (data : string) (out : string * string) (fs fs' : FS) :
  generate_qr_code E data fs = (Ok out, fs') ->
  exists img h clean_name,
    qr_make_image E data = Ok img
    /\ py_hash E (PyStr data) = Ok h
    /\ clean_filename E ("qr_code_" +:+ pretty (h mod 10000000) +:+ ".png") = Ok clean_name
    /\ out = (path_join E (path_join E (temp_dir E) "qr_generator") (clean_name +:+ ".png"),
              "qr_code_" +:+ pretty (h mod 10000000) +:+ ".png")
    /\ fs' = <[fst out := img]> fs.
Proof.
  unfold generate_qr_code, generate_output_path, try_except, bind, lift, ret, raise,
    mkdir, write_bytes.
  intros H.
  repeat case_match; simplify_eq; simpl in *; simplify_eq.
  eexists _, _, _.
  split; [reflexivity|]. split; [reflexivity|]. split; [eassumption|].
  split; reflexivity.
Qed.

(** ** Running the QR generator *)

Lemma call_run_qr_inv (E : Env) (input_data : kwargs) (data : string)
    (result_ : PyVal) (fs fs' : FS) :
  QRGeneratorInput E input_data = Ok data ->
  call_run (QRGeneratorTool E) input_data fs = (Ok result_, fs') ->
  exists out, generate_qr_code E data fs = (Ok out, fs') /\ result_ = pair_value out.
Proof.
  intros Hvalid. unfold call_run.
  destruct (input_data !! "self"); [discriminate|].
  cbn [run QRGeneratorTool]. unfold try_except, bind, lift, ret, raise.
  rewrite Hvalid.
  destruct (generate_qr_code E data fs) as [[out|e] fs1]; [|discriminate].
  intros [= <- <-]. exists out. split; reflexivity.
Qed.

(** A request to qr-generator that is answered was parsed, validated and
    turned into a file; the answer is built from the path and the name
    of that file. *)
Lemma run_tool_qr_inv (E : Env) (w w' : World) (request : Request)
    (input_data : kwargs) (fs1 : FS) (data : string) (response : Response) :
  assoc "qr-generator" (TOOLS w) = Some (QRGeneratorTool E) ->
  parse_input E "qr-generator" request (files w) = (Ok input_data, fs1) ->
  QRGeneratorInput E input_data = Ok data ->
  run_tool E "qr-generator" request w = (Ok response, w') ->
  exists out fs2,
    generate_qr_code E data fs1 = (Ok out, fs2)
    /\ file_response E (PyStr (fst out)) (PyStr (snd out)) = Ok response
    /\ files w' = fs2.
Proof.
  intros Hreg Hparse Hvalid.
  rewrite (run_tool_known E _ _ _ _ Hreg), Hparse.
  destruct (call_run (QRGeneratorTool E) input_data fs1) as [[result_|e] fs2] eqn:Hcall.
  - rewrite (execute_tool_returns _ _ _ _ _ Hcall).
    destruct (call_run_qr_inv E _ _ _ _ _ Hvalid Hcall) as (out & Hgen & ->).
    intros [= Hshape <-]. exists out, fs2. repeat split; assumption.
  - rewrite (execute_tool_raises _ _ _ _ _ Hcall). discriminate.
Qed.

Lemma file_response_inv (E : Env) (file_path filename : PyVal) (response : Response) :
  file_response E file_path filename = Ok response ->
  exists media_type headers, response = FileResponse file_path filename media_type headers.
Proof.
  unfold file_response, rbind.
  destruct (get_media_type_and_extension E filename) as [mt|e]; [|discriminate].
  destruct (FileResponse_error E file_path filename (fst mt) (snd mt)) as [[cls text]|];
    [discriminate|].
  intros [= <-]. eauto.
Qed.

(** * The claims *)

(** C3.  A request to run a name that is not in the registry raises
    [ToolNotFoundException] with the message [Tool '<name>' not found],
    which its handler turns into the document with [status_code] 404.
    The request is not looked at: the statement holds for every body and
    every content type, and the world is left as it was.  The handler
    returns that document as a plain dictionary, with the 404 as one of
    its entries: it builds no response object and sets no status. *)
Theorem unknown_tool_is_not_found
    (E : Env) (w : World) (tool_name : string) (request : Request)
    (Habsent : has_key tool_name (TOOLS w) = false) :
  run_tool E tool_name request w =
    (Raise (ToolError ToolNotFoundException ("Tool '" +:+ tool_name +:+ "' not found")), w)
  /\ post_run E tool_name request w =
       (inl {| error := "Tool '" +:+ tool_name +:+ "' not found"; status_code := 404 |}, w).
Proof.
  assert (H : assoc tool_name (TOOLS w) = None).
  { unfold has_key in Habsent. destruct (assoc tool_name (TOOLS w)); [discriminate | reflexivity]. }
  unfold post_run. rewrite (run_tool_unknown E _ request _ H). split; reflexivity.
Qed.

Lemma unknown_tool_is_not_found_witness :
  has_key "pdf-merger" (TOOLS (initial_world default_env ∅)) = false
  /\ post_run default_env "pdf-merger" file_upload_request (initial_world default_env ∅) =
       (inl {| error := "Tool 'pdf-merger' not found"; status_code := 404 |},
        initial_world default_env ∅).
Proof.
  split; [reflexivity|].
  apply (unknown_tool_is_not_found default_env (initial_world default_env ∅)
           "pdf-merger" file_upload_request).
  reflexivity.
Defined.

(** C10.  [clean_filename] returns [..] for the name made of a dot, a
    space and a dot: no [..] is there to remove when the replacement
    runs, and dropping the space afterwards joins the two dots.  The rest
    holds for every name: [clean_filename] raises
    [FileProcessingException] or returns a string that is not empty and
    has neither [/] nor [\] in it. *)
Theorem clean_filename_returns_dotdot (E : Env) (filename : string) :
  clean_filename E ". ." = Ok ".."
  /\ str_contains ".." ".." = true
  /\ match clean_filename E filename with
     | Ok cleaned =>
         str_truthy cleaned = true
         /\ str_contains "/" cleaned = false
         /\ str_contains "\" cleaned = false
     | Raise e => exists message, e = ToolError FileProcessingException message
     end.
Proof.
  split; [reflexivity|]. split; [reflexivity|].
  destruct (clean_filename E filename) as [cleaned|e] eqn:Hclean.
  - destruct (clean_filename_no_separator E _ _ Hclean) as (Hne & Hslash & Hback).
    split; [|split; assumption].
    destruct cleaned; [contradiction | reflexivity].
  - unfold clean_filename in Hclean.
    repeat case_match; simplify_eq; eauto.
Qed.

(** C5.  An upload whose length is exactly [MAX_FILE_SIZE] passes the
    size check, and is stored when its name cleans to something and the
    system refuses nothing; an upload that is longer, by one byte or
    more, is refused with [FileProcessingException] whatever its name,
    nothing is written, and the form loop of the run endpoint turns the
    refusal into [HTTPException] 400 with the same message. *)
Theorem upload_size_boundary
    (E : Env) (at_limit over_limit : bytes) (original_filename clean_name key : string)
    (tool_name : string) (input_data : kwargs) (fs : FS)
    (Hlimit : len at_limit = MAX_FILE_SIZE (settings E))
    (Hover : len over_limit > MAX_FILE_SIZE (settings E))
    (Hname : clean_filename E original_filename = Ok clean_name)
    (Hmkdir : mkdir_error E fs (save_dir_of E (Some tool_name)) = None)
    (Hwrite : write_error E fs (path_join E (save_dir_of E (Some tool_name)) clean_name) = None) :
  let file_path := path_join E (save_dir_of E (Some tool_name)) clean_name in
  let message := "File size exceeds maximum of "
                 +:+ str_size_mb E (MAX_FILE_SIZE (settings E)) +:+ "MB" in
  validate_file_size E (len at_limit) = Ok tt
  /\ save_uploaded_file E at_limit original_filename (Some tool_name) fs =
       (Ok file_path, <[file_path := at_limit]> fs)
  /\ validate_file_size E (len over_limit) =
       Raise (ToolError FileProcessingException message)
  /\ save_uploaded_file E over_limit original_filename (Some tool_name) fs =
       (Raise (ToolError FileProcessingException message), fs)
  /\ process_part E tool_name input_data key (UploadFile (Some original_filename) over_limit) fs =
       (Raise (HTTPException 400 message), fs).
Proof.
  intros file_path message.
  assert (Hle : len at_limit <= MAX_FILE_SIZE (settings E)) by lia.
  split; [apply validate_file_size_ok; exact Hle|].
  split; [apply save_uploaded_file_ok; assumption|].
  split; [apply validate_file_size_over; exact Hover|].
  split; [apply save_uploaded_file_too_large; exact Hover|].
  unfold process_part, try_except, bind.
  destruct (str_truthy original_filename);
    rewrite (save_uploaded_file_too_large E _ _ _ _ Hover); reflexivity.
Qed.

Lemma upload_size_boundary_witness :
  let at_limit := [Byte.x89; Byte.x50; Byte.x4e; Byte.x47] in
  let over_limit := [Byte.x89; Byte.x50; Byte.x4e; Byte.x47; Byte.x0d] in
  save_uploaded_file small_env at_limit "photo.png" (Some "image-converter") ∅ =
    (Ok "/tmp/tool-execution/image-converter/photo.png",
     <["/tmp/tool-execution/image-converter/photo.png" := at_limit]> ∅)
  /\ save_uploaded_file small_env over_limit "photo.png" (Some "image-converter") ∅ =
       (Raise (ToolError FileProcessingException
                 "File size exceeds maximum of 3.814697265625e-06MB"), ∅).
Proof.
  intros at_limit over_limit.
  destruct (upload_size_boundary small_env at_limit over_limit "photo.png" "photo.png"
              "image" "image-converter" ∅ ∅) as (_ & Hsave & _ & Hrefuse & _);
    [reflexivity | reflexivity | reflexivity | reflexivity | reflexivity |].
  split; [exact Hsave | exact Hrefuse].
Defined.

(** C4.  On a multipart request whose parts were all processed into
    [input_data], the normaliser hands on [rename_file_path input_data]:
    if [image_file_path] is not a key and [file_file_path] is, the value
    is now under [image_file_path], [file_file_path] is gone and every
    other key is as it was; if [image_file_path] is a key, nothing
    changes. *)
Theorem file_part_serves_as_image
    (E : Env) (tool_name : string) (request : Request)
    (form_data : list (string * FormValue)) (input_data : kwargs) (fs fs' : FS)
    (Hjson : str_contains "application/json"
               (default "" (header_content_type request)) = false)
    (Hmultipart : str_contains "multipart/form-data"
                    (default "" (header_content_type request)) = true)
    (Hform : request_form request = Ok form_data)
    (Hparts : process_parts E tool_name form_data ∅ fs = (Ok input_data, fs')) :
  parse_input E tool_name request fs = (Ok (rename_file_path input_data), fs')
  /\ (forall file_path,
        input_data !! "image_file_path" = None ->
        input_data !! "file_file_path" = Some file_path ->
        rename_file_path input_data !! "image_file_path" = Some file_path
        /\ rename_file_path input_data !! "file_file_path" = None
        /\ forall key, key <> "image_file_path" -> key <> "file_file_path" ->
             rename_file_path input_data !! key = input_data !! key)
  /\ (is_Some (input_data !! "image_file_path") ->
      rename_file_path input_data = input_data).
Proof.
  split; [|split].
  - unfold parse_input, try_except, bind, lift, ret.
    rewrite Hjson, Hmultipart, Hform, Hparts. reflexivity.
  - intros file_path Hi Hf.
    rewrite (rename_file_path_moves _ _ Hi Hf).
    split; [apply lookup_insert_eq|].
    split.
    + rewrite lookup_insert_ne by discriminate. apply lookup_delete_eq.
    + intros key H1 H2.
      rewrite lookup_insert_ne by congruence.
      apply lookup_delete_ne. congruence.
  - apply rename_file_path_present.
Qed.

Lemma file_part_serves_as_image_witness :
  let stored := PyStr "/tmp/tool-execution/image-converter/photo.png" in
  let other := PyStr "/tmp/tool-execution/image-converter/other.png" in
  (exists input_data fs',
     parse_input default_env "image-converter" file_upload_request ∅ = (Ok input_data, fs')
     /\ input_data !! "image_file_path" = Some stored
     /\ input_data !! "file_file_path" = None
     /\ input_data !! "target_format" = Some (PyStr "jpg"))
  /\ (exists input_data fs',
        parse_input default_env "image-converter" two_files_request ∅ = (Ok input_data, fs')
        /\ input_data !! "image_file_path" = Some stored
        /\ input_data !! "file_file_path" = Some other).
Proof.
  intros stored other. split.
  - destruct (file_part_serves_as_image default_env "image-converter" file_upload_request
                [("file", UploadFile (Some "photo.png") png_bytes);
                 ("target_format", FormField "jpg")]
                (<["target_format" := PyStr "jpg"]> (<["file_file_path" := stored]> ∅))
                ∅
                (<["/tmp/tool-execution/image-converter/photo.png" := png_bytes]> ∅))
      as (Hparse & Hmove & _);
      [reflexivity | reflexivity | reflexivity | reflexivity |].
    destruct (Hmove stored) as (Himage & Hfile & Hrest); [reflexivity | reflexivity |].
    eexists _, _. split; [exact Hparse|].
    split; [exact Himage|]. split; [exact Hfile|].
    rewrite Hrest by discriminate. reflexivity.
  - destruct (file_part_serves_as_image default_env "image-converter" two_files_request
                [("image", UploadFile (Some "photo.png") png_bytes);
                 ("file", UploadFile (Some "other.png") png_bytes)]
                (<["file_file_path" := other]> (<["image_file_path" := stored]> ∅))
                ∅
                (<["/tmp/tool-execution/image-converter/other.png" := png_bytes]>
                   (<["/tmp/tool-execution/image-converter/photo.png" := png_bytes]> ∅)))
      as (Hparse & _ & Hsame);
      [reflexivity | reflexivity | reflexivity | reflexivity |].
    eexists _, _. split; [exact Hparse|].
    rewrite Hsame by (eexists; reflexivity).
    split; reflexivity.
Defined.

(** C6.  In the registry the process starts with: for a registered name
    [tool_exists] answers [True] and [get_tool] returns a tool whose
    metadata carries that name; for a name that is not registered
    [tool_exists] answers [False] and [get_tool] raises the [KeyError]
    that says the tool was not found.  None of [tool_exists], [get_tool]
    and [list_tools] changes the world it runs in, whatever that world
    is. *)
Theorem registry_lookup
    (E : Env) (fs : FS) (registered absent : string)
    (Hregistered : In registered (List.map fst (initial_TOOLS E)))
    (Habsent : ~ In absent (List.map fst (initial_TOOLS E))) :
  let w := initial_world E fs in
  tool_exists registered w = (Ok true, w)
  /\ (exists tool,
        get_tool registered w = (Ok tool, w)
        /\ md_name (get_metadata tool) = registered)
  /\ tool_exists absent w = (Ok false, w)
  /\ get_tool absent w =
       (Raise (KeyError ("Tool '" +:+ absent +:+ "' not found")), w)
  /\ (forall (w' : World) (tool_name : string),
        snd (tool_exists tool_name w') = w'
        /\ snd (get_tool tool_name w') = w'
        /\ snd (list_tools w') = w').
Proof.
  intros w.
  pose proof (assoc_initial E registered) as Hr.
  pose proof (assoc_initial E absent) as Ha.
  destruct (assoc registered (initial_TOOLS E)) as [tool|] eqn:Hlook; [|contradiction].
  destruct (assoc absent (initial_TOOLS E)) as [other|] eqn:Hmiss; [tauto|].
  split; [rewrite tool_exists_run; unfold has_key;
          change (TOOLS w) with (initial_TOOLS E); rewrite Hlook; reflexivity|].
  split.
  { exists tool. split; [apply get_tool_found; exact Hlook | apply Hr]. }
  split; [rewrite tool_exists_run; unfold has_key;
          change (TOOLS w) with (initial_TOOLS E); rewrite Hmiss; reflexivity|].
  split; [apply get_tool_missing; exact Hmiss|].
  intros w' tool_name. split; [reflexivity|]. split; [|reflexivity].
  destruct (assoc tool_name (TOOLS w')) as [t|] eqn:Hw.
  - rewrite (get_tool_found _ _ _ Hw). reflexivity.
  - rewrite (get_tool_missing _ _ Hw). reflexivity.
Qed.

Lemma registry_lookup_witness :
  let w := initial_world default_env ∅ in
  tool_exists "image-converter" w = (Ok true, w)
  /\ get_tool "image-converter" w = (Ok (ImageConverterTool default_env), w)
  /\ get_tool "pdf-merger" w = (Raise (KeyError "Tool 'pdf-merger' not found"), w).
Proof.
  intros w.
  destruct (registry_lookup default_env ∅ "image-converter" "pdf-merger")
    as (Hexists & _ & _ & Hmissing & _).
  - simpl. tauto.
  - simpl. intros [H|[H|[H|[]]]]; discriminate.
  - split; [exact Hexists|]. split; [reflexivity | exact Hmissing].
Defined.

(** C7.  From start-up on, [list_tools] returns the metadata of
    qr-generator, image-converter and image-compressor in that order, and
    still does after any sequence of requests to the run endpoint;
    [GET /system/tools] returns the same list, and its [count] is the
    length of the list it returns, in every world. *)
Theorem list_tools_order
    (E : Env) (fs : FS) (requests : list (string * Request)) (elsewhere : World) :
  let w := initial_world E fs in
  let listed := [get_metadata (QRGeneratorTool E);
                 get_metadata (ImageConverterTool E);
                 get_metadata (ImageCompressorTool E)] in
  List.map md_name listed = ["qr-generator"; "image-converter"; "image-compressor"]
  /\ list_tools w = (Ok listed, w)
  /\ list_all_tools w = (Ok {| tools := listed; count := 3 |}, w)
  /\ fst (list_tools (serve E requests w)) = Ok listed
  /\ fst (list_all_tools (serve E requests w)) = Ok {| tools := listed; count := 3 |}
  /\ fst (list_tools (snd (list_tools w))) = Ok listed
  /\ (exists found,
        list_all_tools elsewhere =
          (Ok {| tools := found; count := Z.of_nat (List.length found) |}, elsewhere)
        /\ list_tools elsewhere = (Ok found, elsewhere)).
Proof.
  intros w listed.
  split; [reflexivity|]. split; [reflexivity|]. split; [reflexivity|].
  split; [rewrite list_tools_run, serve_TOOLS; reflexivity|].
  split.
  - unfold list_all_tools, bind. rewrite list_tools_run, serve_TOOLS. reflexivity.
  - split; [reflexivity|]. eexists. split; reflexivity.
Qed.

(** C1, as the code has it.  When the call of a registered tool has
    returned [result_]: if the tool is of kind [file] and [result_] is
    not a tuple of length two, the dispatcher raises [HTTPException] 500
    with the fixed detail [Invalid tool output]; if the tool is of kind
    [json], the dispatcher returns [{"data": result_}] whatever [result_]
    is. *)
Theorem tool_result_shape
    (E : Env) (w : World) (tool_name : string) (tool : Tool) (request : Request)
    (input_data : kwargs) (result_ : PyVal) (fs1 fs2 : FS)
    (Hregistered : assoc tool_name (TOOLS w) = Some tool)
    (Hparse : parse_input E tool_name request (files w) = (Ok input_data, fs1))
    (Hrun : call_run tool input_data fs1 = (Ok result_, fs2)) :
  let w' := {| TOOLS := TOOLS w; files := fs2 |} in
  (output_type tool = "file" -> is_pair result_ = false ->
   run_tool E tool_name request w = (Raise (HTTPException 500 "Invalid tool output"), w'))
  /\ (output_type tool = "json" ->
      run_tool E tool_name request w = (Ok (DataDocument result_), w')).
Proof.
  intros w'.
  assert (Hstep : run_tool E tool_name request w = (shape_response E tool result_, w')).
  { rewrite (run_tool_known E _ _ _ _ Hregistered), Hparse.
    rewrite (execute_tool_returns _ _ _ _ _ Hrun). reflexivity. }
  split.
  - intros Hkind Hshape. rewrite Hstep.
    unfold shape_response. rewrite Hkind. simpl.
    destruct result_ as [| | | | | | |[|a [|b [|c rest]]]| |]; try reflexivity.
    discriminate Hshape.
  - intros Hkind. rewrite Hstep.
    unfold shape_response. rewrite Hkind. reflexivity.
Qed.

Lemma tool_result_shape_witness :
  run_tool default_env "path-only" (json_request (JObj [])) example_world =
    (Raise (HTTPException 500 "Invalid tool output"), example_world)
  /\ run_tool default_env "opaque" (json_request (JObj [])) example_world =
       (Ok (DataDocument (PyObject "object" [])), example_world).
Proof.
  split.
  - destruct (tool_result_shape default_env example_world "path-only" path_only_tool
                (json_request (JObj [])) ∅
                (PyStr "/tmp/tool-execution/path-only/out.png") ∅ ∅)
      as [Hfile _]; [reflexivity | reflexivity | reflexivity |].
    apply Hfile; reflexivity.
  - destruct (tool_result_shape default_env example_world "opaque" opaque_tool
                (json_request (JObj [])) ∅ (PyObject "object" []) ∅ ∅)
      as [_ Hjson]; [reflexivity | reflexivity | reflexivity |].
    apply Hjson. reflexivity.
Defined.

(** C1, as stated, fails on a tool of kind [json]: the result of
    [opaque_tool] is an instance of [object], which no JSON encoder
    accepts, and the dispatcher raises nothing: it returns the value
    under [data]. *)
Lemma json_result_is_not_checked :
  output_type opaque_tool = "json"
  /\ run opaque_tool ∅ ∅ = (Ok (PyObject "object" []), ∅)
  /\ json_compatible (PyObject "object" []) = false
  /\ run_tool default_env "opaque" (json_request (JObj [])) example_world =
       (Ok (DataDocument (PyObject "object" [])), example_world).
Proof. repeat split. Qed.




(** C8, as the code has it.  The path of a generated QR image is fixed
    by its data: within one process, two requests to qr-generator whose
    validated data is the same and that are both answered get the same
    answer, with the same path and the same name, and each leaves the
    image at that path, the later one in the place of the earlier one.
    No request to the run endpoint removes a file: every path stored
    before a sequence of requests is stored after it. *)
Theorem qr_paths_are_reused_files_are_kept
    (E : Env) (w1 w1' w2 w2' : World) (request1 request2 : Request)
    (input1 input2 : kwargs) (fs1 fs2 : FS) (data : string)
    (response1 response2 : Response)
    (Hregistered1 : assoc "qr-generator" (TOOLS w1) = Some (QRGeneratorTool E))
    (Hregistered2 : assoc "qr-generator" (TOOLS w2) = Some (QRGeneratorTool E))
    (Hparse1 : parse_input E "qr-generator" request1 (files w1) = (Ok input1, fs1))
    (Hparse2 : parse_input E "qr-generator" request2 (files w2) = (Ok input2, fs2))
    (Hdata1 : QRGeneratorInput E input1 = Ok data)
    (Hdata2 : QRGeneratorInput E input2 = Ok data)
    (Hanswer1 : run_tool E "qr-generator" request1 w1 = (Ok response1, w1'))
    (Hanswer2 : run_tool E "qr-generator" request2 w2 = (Ok response2, w2')) :
  response2 = response1
  /\ (exists file_path filename media_type headers img,
        response1 = FileResponse (PyStr file_path) (PyStr filename) media_type headers
        /\ files w1' = <[file_path := img]> fs1
        /\ files w2' = <[file_path := img]> fs2)
  /\ (forall (requests : list (string * Request)) (fs : FS),
        dom fs ⊆ dom (files (serve E requests (initial_world E fs)))).
Proof.
  destruct (run_tool_qr_inv E _ _ _ _ _ _ _ Hregistered1 Hparse1 Hdata1 Hanswer1)
    as (out1 & fs1' & Hgen1 & Hshape1 & Hfiles1).
  destruct (run_tool_qr_inv E _ _ _ _ _ _ _ Hregistered2 Hparse2 Hdata2 Hanswer2)
    as (out2 & fs2' & Hgen2 & Hshape2 & Hfiles2).
  apply generate_qr_code_inv in Hgen1 as (img1 & h1 & n1 & Hi1 & Hh1 & Hn1 & Hout1 & ->).
  apply generate_qr_code_inv in Hgen2 as (img2 & h2 & n2 & Hi2 & Hh2 & Hn2 & Hout2 & ->).
  assert (img2 = img1) as -> by congruence.
  assert (h2 = h1) as -> by congruence.
  assert (n2 = n1) as -> by congruence.
  assert (out2 = out1) as -> by congruence.
  split; [congruence|]. split.
  - destruct (file_response_inv E _ _ _ Hshape1) as (media_type & headers & ->).
    exists (fst out1), (snd out1), media_type, headers, img1. repeat split; assumption.
  - intros requests fs path Hpath.
    apply elem_of_dom. apply elem_of_dom in Hpath.
    apply serve_keeps_files; [apply keeps_initial_tools | exact Hpath].
Qed.

Lemma qr_paths_are_reused_files_are_kept_witness :
  let qr1 := json_request (JObj [("data", JStr "hello")]) in
  let qr2 := json_request (JObj [("size", JInt 3); ("data", JStr "hello")]) in
  let w0 := initial_world default_env ∅ in
  let w1 := snd (run_tool default_env "qr-generator" qr1 w0) in
  let w2 := snd (run_tool default_env "qr-generator" qr2 w1) in
  fst (run_tool default_env "qr-generator" qr2 w1) =
    fst (run_tool default_env "qr-generator" qr1 w0)
  /\ dom (files w1) ⊆
       dom (files (serve default_env
                     [("qr-generator", qr2);
                      ("image-converter", image_form_request "photo.png" png_bytes "png")]
                     (initial_world default_env (files w1)))).
Proof.
  intros qr1 qr2 w0 w1 w2.
  destruct (qr_paths_are_reused_files_are_kept default_env w0 w1 w1 w2 qr1 qr2
              (<["data" := PyStr "hello"]> ∅)
              (<["data" := PyStr "hello"]> (<["size" := PyInt 3]> ∅))
              ∅ (files w1) "hello"
              (FileResponse (PyStr "/tmp/tool-execution/qr_generator/qr_code_162.png.png")
                 (PyStr "qr_code_162.png") "image/png"
                 [("X-File-Extension", PyStr ".png"); ("X-File-Name", PyStr "qr_code_162.png")])
              (FileResponse (PyStr "/tmp/tool-execution/qr_generator/qr_code_162.png.png")
                 (PyStr "qr_code_162.png") "image/png"
                 [("X-File-Extension", PyStr ".png"); ("X-File-Name", PyStr "qr_code_162.png")]))
    as (_ & _ & Hkept);
    [reflexivity | reflexivity | reflexivity | reflexivity | reflexivity | reflexivity
    | reflexivity | reflexivity |].
  split; [reflexivity | apply Hkept].
Defined.

(** C8, as stated, fails on two requests to qr-generator for the same
    data: the second is answered with the path of the first, a path that
    was already stored when it arrived, and writes its image there. *)
Lemma second_qr_code_reuses_the_path :
  let code := "/tmp/tool-execution/qr_generator/qr_code_596.png.png" in
  let qr := json_request (JObj [("data", JStr "https://example.com")]) in
  let w0 := initial_world default_env ∅ in
  let w1 := snd (run_tool default_env "qr-generator" qr w0) in
  let w2 := snd (run_tool default_env "qr-generator" qr w1) in
  let answer :=
    Ok (FileResponse (PyStr code) (PyStr "qr_code_596.png") "image/png"
          [("X-File-Extension", PyStr ".png"); ("X-File-Name", PyStr "qr_code_596.png")]) in
  fst (run_tool default_env "qr-generator" qr w0) = answer
  /\ fst (run_tool default_env "qr-generator" qr w1) = answer
  /\ files w0 !! code = None
  /\ files w1 !! code = Some png_bytes
  /\ files w2 !! code = Some png_bytes.
Proof. repeat split. Qed.

(** C9.  A conversion to [jpg] asks the image library for an encoder
    named [JPG].  The library knows its JPEG encoder as [JPEG] only and
    raises [KeyError] for [JPG]; so, for every image, [convert_image]
    with the target format [jpg] raises and writes nothing, and the tool
    raises [ToolExecutionException], although [jpg] is among the allowed
    formats.  On an upload of a PNG file the dispatcher raises
    [HTTPException] 500 for the target [jpg], while the same upload is
    converted for the target [jpeg]. *)
Theorem conversion_to_jpg_fails
    (E : Env) (input_path : PyVal) (input_data : kwargs) (quality : Z) (fs : FS)
    (Hlibrary : forall image q optimize,
                  Image_encode E image "JPG" q optimize = Raise (KeyError "JPG"))
    (Hvalid : ImageConverterInput E (delete "image_file_path" input_data) = Ok ("jpg", quality)) :
  (exists e, convert_image E input_path "jpg" quality fs = (Raise e, fs))
  /\ (exists message,
        run (ImageConverterTool E) input_data fs =
          (Raise (ToolError ToolExecutionException message), fs))
  /\ run_tool (strict_pillow default_env) "image-converter"
       (image_form_request "photo.png" png_bytes "jpg")
       (initial_world (strict_pillow default_env) ∅) =
       (Raise (HTTPException 500 "Failed to convert image: 'JPG'"),
        initial_world (strict_pillow default_env) ∅)
  /\ fst (run_tool (strict_pillow default_env) "image-converter"
            (image_form_request "photo.png" png_bytes "jpeg")
            (initial_world (strict_pillow default_env) ∅)) =
       Ok (FileResponse (PyStr "/tmp/tool-execution/image_converter/converted_286.jpeg")
             (PyStr "converted_286.jpeg") "image/jpeg"
             [("X-File-Extension", PyStr ".jpeg");
              ("X-File-Name", PyStr "converted_286.jpeg")]).
Proof.
  assert (Hconvert : forall input fs0,
            exists e, convert_image E input "jpg" quality fs0 = (Raise e, fs0)).
  { intros input fs0.
    assert (Hlower : lower E "jpg" = "jpg") by reflexivity.
    assert (Hupper : upper E "jpg" = "JPG") by reflexivity.
    unfold convert_image, generate_output_path, try_except, bind, lift, ret, raise,
      mkdir, write_bytes.
    rewrite Hlower, Hupper.
    change (str_in "jpg" ["jpg"; "jpeg"; "webp"]) with true.
    cbv iota.
    repeat case_match; simplify_eq; eauto;
      match goal with
      | H : Image_encode _ _ _ _ _ = Ok _ |- _ => rewrite Hlibrary in H; discriminate
      end. }
  split; [apply Hconvert|]. split; [|split; reflexivity].
  cbn [run ImageConverterTool].
  destruct (truthy (default PyNone (input_data !! "image_file_path"))); cbn [negb].
  2:{ eexists. reflexivity. }
  unfold try_except, bind, lift, raise, ret. rewrite Hvalid. cbn [fst snd].
  destruct (Hconvert (default PyNone (input_data !! "image_file_path")) fs) as [e He].
  rewrite He. eexists. reflexivity.
Qed.

Lemma conversion_to_jpg_fails_witness :
  let E := strict_pillow default_env in
  let input_data :=
    <["target_format" := PyStr "jpg"]>
      (<["image_file_path" := upload_object "photo.png" png_bytes]> ∅) in
  convert_image E (upload_object "photo.png" png_bytes) "jpg" 85 ∅ =
    (Raise (KeyError "JPG"), ∅)
  /\ exists message,
       run (ImageConverterTool E) input_data ∅ =
         (Raise (ToolError ToolExecutionException message), ∅).
Proof.
  intros E input_data. split; [reflexivity|].
  destruct (conversion_to_jpg_fails E (upload_object "photo.png" png_bytes) input_data 85 ∅)
    as (_ & Hrun & _); [reflexivity | reflexivity | exact Hrun].
Defined.

(** * Further properties *)

(** ** File names *)

Lemma length_str_filter (keep : ascii -> bool) (s : string) :
  (String.length (str_filter keep s) <= String.length s)%nat.
Proof.
  induction s as [|c rest IH]; simpl; [lia|].
  destruct (keep c); simpl; lia.
Qed.

Lemma length_replace_by_nothing (old : string) (skip : nat) (s : string) :
  (String.length (replace_from old "" skip s) <= String.length s)%nat.
Proof.
  revert skip. induction s as [|c rest IH]; intros skip; simpl; [lia|].
  destruct skip as [|k].
  - destruct (startswith old (String c rest)); simpl.
    + specialize (IH (String.length old - 1)%nat).
      change ("" +:+ replace_from old "" (String.length old - 1) rest)
        with (replace_from old "" (String.length old - 1) rest).
      lia.
    + specialize (IH O). lia.
  - specialize (IH k). lia.
Qed.

Lemma str_filter_idempotent (keep : ascii -> bool) (s : string) :
  str_filter keep (str_filter keep s) = str_filter keep s.
Proof.
  induction s as [|c rest IH]; simpl; [reflexivity|].
  destruct (keep c) eqn:Hc; simpl; [rewrite Hc, IH; reflexivity | exact IH].
Qed.

(** Replacing a substring that does not occur changes nothing. *)
Lemma str_replace_absent (old new s : string) :
  str_contains old s = false -> str_replace old new s = s.
Proof.
  unfold str_replace. induction s as [|c rest IH]; [reflexivity|].
  simpl. intros H. apply orb_false_iff in H as [Hhere Hlater].
  assert (Hstart : startswith old (String c rest) = false) by exact Hhere.
  rewrite Hstart. rewrite (IH Hlater). reflexivity.
Qed.

(** X1.  A name [clean_filename] returns is made of word characters,
    hyphens and dots only, and is no longer than the name it was given. *)
Theorem clean_filename_only_safe_characters
    (E : Env) (filename cleaned : string)
    (Hclean : clean_filename E filename = Ok cleaned) :
  str_filter (safe_char E) cleaned = cleaned
  /\ (String.length cleaned <= String.length filename)%nat.
Proof.
  unfold clean_filename in Hclean.
  destruct (negb (str_truthy filename)); [discriminate|].
  destruct (negb (str_truthy _)); [discriminate|].
  injection Hclean as <-. split; [apply str_filter_idempotent|].
  etransitivity; [apply length_str_filter|].
  unfold str_replace.
  etransitivity; [apply length_replace_by_nothing|].
  etransitivity; [apply length_replace_by_nothing|].
  apply length_replace_by_nothing.
Qed.

Lemma clean_filename_only_safe_characters_witness :
  clean_filename default_env "../my photo (1).png" = Ok "myphoto1.png"
  /\ str_filter (safe_char default_env) "myphoto1.png" = "myphoto1.png"
  /\ (String.length "myphoto1.png" <= String.length "../my photo (1).png")%nat.
Proof.
  split; [reflexivity|].
  apply (clean_filename_only_safe_characters default_env "../my photo (1).png").
  reflexivity.
Defined.

Lemma clean_filename_fixed_point
    (E : Env) (filename : string) :
  str_truthy filename = true ->
  str_filter (safe_char E) filename = filename ->
  str_contains ".." filename = false ->
  clean_filename E filename = Ok filename.
Proof.
  intros Hfilled Hsafe Hdots.
  assert (Hback : str_contains "\" filename = false).
  { rewrite <- Hsafe. apply str_filter_drops. apply safe_char_backslash. }
  assert (Hslash : str_contains "/" filename = false).
  { rewrite <- Hsafe. apply str_filter_drops. apply safe_char_slash. }
  unfold clean_filename. rewrite Hfilled. simpl.
  rewrite (str_replace_absent "\" "" _ Hback).
  rewrite (str_replace_absent "/" "" _ Hslash).
  rewrite (str_replace_absent ".." "" _ Hdots).
  rewrite Hsafe, Hfilled. reflexivity.
Qed.

(** X2.  A name that is not empty, is made of word characters, hyphens
    and dots only and has no two dots in a row comes back from
    [clean_filename] as it went in. *)
Theorem clean_filename_keeps_safe_names
    (E : Env) (filename : string)
    (Hfilled : str_truthy filename = true)
    (Hsafe : str_filter (safe_char E) filename = filename)
    (Hdots : str_contains ".." filename = false) :
  clean_filename E filename = Ok filename.
Proof. apply clean_filename_fixed_point; assumption. Qed.

Lemma clean_filename_keeps_safe_names_witness :
  clean_filename default_env "holiday-2024_final.v2.png" = Ok "holiday-2024_final.v2.png".
Proof.
  apply (clean_filename_keeps_safe_names default_env "holiday-2024_final.v2.png");
    reflexivity.
Defined.

(** ** Saving *)

(** X3.  [save_uploaded_file] has two outcomes.  It returns the path
    [temp_dir / subfolder / cleaned name] of an upload within the size
    limit, and the storage is then the one before with the content under
    that path; or it raises [FileProcessingException], no other class,
    and the storage is as it was. *)
Theorem save_uploaded_file_outcome
    (E : Env) (file_content : bytes) (original_filename : string)
    (subfolder : option string) (fs : FS) :
  match save_uploaded_file E file_content original_filename subfolder fs with
  | (Ok file_path, fs') =>
      fs' = <[file_path := file_content]> fs
      /\ fs' !! file_path = Some file_content
      /\ len file_content <= MAX_FILE_SIZE (settings E)
      /\ exists clean_name,
           clean_filename E original_filename = Ok clean_name
           /\ file_path = path_join E (save_dir_of E subfolder) clean_name
  | (Raise e, fs') =>
      fs' = fs /\ exists message, e = ToolError FileProcessingException message
  end.
Proof.
  destruct (save_uploaded_file E file_content original_filename subfolder fs)
    as [[file_path|e] fs'] eqn:Hsave;
    apply save_uploaded_file_inv in Hsave.
  - destruct Hsave as (clean_name & Hclean & Hpath & Hsize & ->).
    split; [reflexivity|]. split; [apply lookup_insert_eq|]. eauto.
  - exact Hsave.
Qed.

(** X4.  When the operating system refuses the write, the caller of
    [save_uploaded_file] sees [FileProcessingException] with the text of
    the system's error after [Failed to save file: ], and nothing is
    stored. *)
Theorem save_uploaded_file_wraps_os_error
    (E : Env) (file_content : bytes) (original_filename clean_name : string)
    (subfolder : option string) (fs : FS) (cls text : string)
    (Hsize : len file_content <= MAX_FILE_SIZE (settings E))
    (Hname : clean_filename E original_filename = Ok clean_name)
    (Hmkdir : mkdir_error E fs (save_dir_of E subfolder) = None)
    (Hwrite : write_error E fs (path_join E (save_dir_of E subfolder) clean_name) =
                Some (PyException cls text)) :
  save_uploaded_file E file_content original_filename subfolder fs =
    (Raise (ToolError FileProcessingException ("Failed to save file: " +:+ text)), fs).
Proof.
  unfold save_uploaded_file, try_except, bind, lift, ret.
  rewrite (validate_file_size_ok E _ Hsize), Hname.
  unfold save_dir_of in *.
  destruct subfolder as [sub|]; [destruct (str_truthy sub)|];
    unfold mkdir, write_bytes; rewrite ?Hmkdir, Hwrite; reflexivity.
Qed.

Lemma save_uploaded_file_wraps_os_error_witness :
  save_uploaded_file (read_only default_env) png_bytes "photo.png" (Some "image-converter") ∅ =
    (Raise (ToolError FileProcessingException
              "Failed to save file: [Errno 13] Permission denied"), ∅).
Proof.
  apply (save_uploaded_file_wraps_os_error (read_only default_env) png_bytes
           "photo.png" "photo.png" (Some "image-converter") ∅ "PermissionError"
           "[Errno 13] Permission denied");
    [vm_compute; discriminate | reflexivity | reflexivity | reflexivity].
Defined.

(** X5.  [generate_output_path] writes nothing.  When it returns, the
    name it returns is the cleaned name followed by a dot and the
    extension, and the path is that name under [temp_dir / tool_name];
    an extension given with its dot gives the same answer as one given
    without. *)
Theorem generate_output_path_extension
    (E : Env) (tool_name filename ext : string) (fs : FS)
    (Hfilled : str_truthy ext = true)
    (Hbare : startswith "." ext = false) :
  generate_output_path E tool_name filename (Some ("." +:+ ext)) fs =
    generate_output_path E tool_name filename (Some ext) fs
  /\ match generate_output_path E tool_name filename (Some ext) fs with
     | (Ok out, fs') =>
         fs' = fs
         /\ exists clean_name,
              clean_filename E filename = Ok clean_name
              /\ snd out = clean_name +:+ "." +:+ ext
              /\ fst out = path_join E (path_join E (temp_dir E) tool_name) (snd out)
     | (Raise e, fs') => fs' = fs
     end.
Proof.
  assert (Hdotted : str_truthy ("." +:+ ext) = true) by reflexivity.
  assert (Hstarts : startswith "." ("." +:+ ext) = true) by (destruct ext; reflexivity).
  unfold generate_output_path, bind, lift, ret, mkdir.
  rewrite Hfilled, Hbare, Hdotted, Hstarts.
  split; [reflexivity|].
  destruct (mkdir_error E fs (path_join E (temp_dir E) tool_name)); [reflexivity|].
  destruct (clean_filename E filename) as [clean_name|e]; [|reflexivity].
  split; [reflexivity|]. exists clean_name. repeat split.
Qed.

Lemma generate_output_path_extension_witness :
  generate_output_path default_env "image_converter" "converted_42" (Some ".jpg") ∅ =
    generate_output_path default_env "image_converter" "converted_42" (Some "jpg") ∅
  /\ generate_output_path default_env "image_converter" "converted_42" (Some "jpg") ∅ =
       (Ok ("/tmp/tool-execution/image_converter/converted_42.jpg", "converted_42.jpg"), ∅).
Proof.
  destruct (generate_output_path_extension default_env "image_converter" "converted_42"
              "jpg" ∅) as [Hsame _]; [reflexivity | reflexivity |].
  split; [exact Hsame | reflexivity].
Defined.

(** ** Registry and system routes *)

(** X6.  In every registry, [get_tool] and [tool_exists] agree:
    [get_tool] returns the tool stored under the name exactly when
    [tool_exists] answers [True], and raises [KeyError] with the
    not-found text when it answers [False]; neither changes anything. *)
Theorem get_tool_agrees_with_tool_exists (w : World) (tool_name : string) :
  match get_tool tool_name w with
  | (Ok tool, w') =>
      w' = w
      /\ tool_exists tool_name w = (Ok true, w)
      /\ In (tool_name, tool) (TOOLS w)
  | (Raise e, w') =>
      w' = w
      /\ tool_exists tool_name w = (Ok false, w)
      /\ e = KeyError ("Tool '" +:+ tool_name +:+ "' not found")
  end.
Proof.
  rewrite tool_exists_run. unfold has_key.
  destruct (assoc tool_name (TOOLS w)) as [tool|] eqn:Hlook.
  - rewrite (get_tool_found _ _ _ Hlook).
    split; [reflexivity|]. split; [reflexivity|]. exact (assoc_In _ _ _ Hlook).
  - rewrite (get_tool_missing _ _ Hlook). repeat split.
Qed.

(** X7.  [GET /system/tools/{tool_name}]: for a name in the registry the
    route returns the metadata of the tool stored under it; for any
    other name it raises [ToolNotFoundException], which its handler
    answers with [status_code] 404.  The route changes nothing, so asking
    twice gives the same answer; and in the registry the process starts
    with, the metadata returned carries the name asked for. *)
Theorem get_tool_metadata_answer (E : Env) (w : World) (fs : FS) (tool_name : string) :
  match assoc tool_name (TOOLS w) with
  | Some tool => get_tool_metadata tool_name w = (Ok (get_metadata tool), w)
  | None =>
      get_tool_metadata tool_name w =
        (Raise (ToolError ToolNotFoundException ("Tool '" +:+ tool_name +:+ "' not found")), w)
      /\ handle_exception
           (ToolError ToolNotFoundException ("Tool '" +:+ tool_name +:+ "' not found")) =
         {| error := "Tool '" +:+ tool_name +:+ "' not found"; status_code := 404 |}
  end
  /\ get_tool_metadata tool_name (snd (get_tool_metadata tool_name w)) =
       get_tool_metadata tool_name w
  /\ match fst (get_tool_metadata tool_name (initial_world E fs)) with
     | Ok metadata => md_name metadata = tool_name
     | Raise _ => has_key tool_name (initial_TOOLS E) = false
     end.
Proof.
  assert (Hrun : forall w0,
    get_tool_metadata tool_name w0 =
      match assoc tool_name (TOOLS w0) with
      | Some tool => (Ok (get_metadata tool), w0)
      | None => (Raise (ToolError ToolNotFoundException
                          ("Tool '" +:+ tool_name +:+ "' not found")), w0)
      end).
  { intros w0. unfold get_tool_metadata, bind. rewrite tool_exists_run. unfold has_key.
    destruct (assoc tool_name (TOOLS w0)) as [tool|] eqn:Hlook; simpl; [|reflexivity].
    rewrite (get_tool_found _ _ _ Hlook). reflexivity. }
  split; [|split].
  - rewrite Hrun. destruct (assoc tool_name (TOOLS w)); [reflexivity | split; reflexivity].
  - rewrite (Hrun w).
    destruct (assoc tool_name (TOOLS w)) as [tool|] eqn:Hlook; simpl;
      rewrite Hrun, Hlook; reflexivity.
  - rewrite Hrun. change (TOOLS (initial_world E fs)) with (initial_TOOLS E).
    pose proof (assoc_initial E tool_name) as Hname. unfold has_key.
    destruct (assoc tool_name (initial_TOOLS E)) as [tool|]; simpl; [apply Hname | reflexivity].
Qed.

(** X8.  [BaseTool.__init__] accepts a tool exactly when its name,
    description and version are non-empty, its input schema is truthy
    and its output type is [json] or [file]; otherwise it raises
    [ValueError] with a text that starts with the name of the class. *)
Theorem BaseTool_init_checks (self : Tool) :
  match BaseTool_init self with
  | Ok _ =>
      str_truthy (name self) = true
      /\ str_truthy (description self) = true
      /\ str_truthy (version self) = true
      /\ truthy (input_schema self) = true
      /\ (output_type self = "json" \/ output_type self = "file")
  | Raise e =>
      (exists text, e = PyException "ValueError" (class_name self +:+ text))
      /\ str_truthy (name self) && str_truthy (description self)
         && str_truthy (version self) && truthy (input_schema self)
         && str_in (output_type self) ["json"; "file"] = false
  end.
Proof.
  unfold BaseTool_init.
  destruct (str_truthy (name self)); simpl; [|eauto].
  destruct (str_truthy (description self)); simpl; [|eauto].
  destruct (str_truthy (version self)); simpl; [|eauto].
  destruct (truthy (input_schema self)); simpl; [|eauto].
  unfold str_in. simpl.
  destruct (String.eqb_spec (output_type self) "json") as [Hj|Hj]; simpl; [auto 10|].
  destruct (String.eqb_spec (output_type self) "file") as [Hf|Hf]; simpl; [auto 10 | eauto].
Qed.


Lemma file_response_ok (E : Env) (file_path filename : PyVal) (response : Response) :
  file_response E file_path filename = Ok response ->
  exists media_type extension,
    get_media_type_and_extension E filename = Ok (media_type, extension)
    /\ FileResponse_error E file_path filename media_type extension = None
    /\ response = FileResponse file_path filename media_type
                    [("X-File-Extension", PyStr extension); ("X-File-Name", filename)].
Proof.
  unfold file_response, rbind.
  destruct (get_media_type_and_extension E filename) as [[media_type extension]|e];
    [|discriminate].
  cbn [fst snd].
  destruct (FileResponse_error E file_path filename media_type extension) as [[cls text]|]
    eqn:Hconstructor; [discriminate|].
  intros [= <-]. exists media_type, extension. repeat split. exact Hconstructor.
Qed.

Lemma file_response_raises (E : Env) (file_path filename : PyVal) (e : exn) :
  file_response E file_path filename = Raise e ->
  exists cls text, e = PyException cls text.
Proof.
  unfold file_response, get_media_type_and_extension, Path, rbind.
  repeat case_match; simplify_eq; intros [= <-]; eauto.
Qed.

(** X9.  For a tool that [BaseTool.__init__] accepted, the dispatcher
    never reaches [Unknown output type].  A [json] tool gets its result
    back under [data].  A [file] tool gets a [FileResponse] for a pair
    whose name has a media type and from which the response object can be
    built, with the name and its extension in the headers; an
    [HTTPException] 500 [Invalid tool output] for anything that is not a
    pair; and, for a pair, the exception that the constructor of [Path]
    or of [FileResponse] raised. *)
Theorem accepted_tool_has_known_output_type
    (E : Env) (self : Tool) (result_ : PyVal)
    (Haccepted : BaseTool_init self = Ok tt) :
  match shape_response E self result_ with
  | Ok (DataDocument data) => output_type self = "json" /\ data = result_
  | Ok (FileResponse file_path filename media_type headers) =>
      output_type self = "file"
      /\ result_ = PyTuple [file_path; filename]
      /\ exists extension,
           get_media_type_and_extension E filename = Ok (media_type, extension)
           /\ FileResponse_error E file_path filename media_type extension = None
           /\ headers = [("X-File-Extension", PyStr extension); ("X-File-Name", filename)]
  | Raise (HTTPException status_code detail) =>
      output_type self = "file" /\ is_pair result_ = false
      /\ status_code = 500 /\ detail = "Invalid tool output"
  | Raise (PyException cls text) =>
      output_type self = "file"
      /\ exists file_path filename,
           result_ = PyTuple [file_path; filename]
           /\ file_response E file_path filename = Raise (PyException cls text)
  | Raise _ => False
  end.
Proof.
  pose proof (BaseTool_init_checks self) as Hchecks. rewrite Haccepted in Hchecks.
  destruct Hchecks as (_ & _ & _ & _ & [Hkind|Hkind]);
    unfold shape_response; rewrite Hkind; simpl; [auto|].
  destruct result_ as [| | | | | | |[|file_path [|filename [|extra rest]]]| |]; simpl; auto.
  destruct (file_response E file_path filename) as [response|e] eqn:Hresponse.
  - destruct (file_response_ok E _ _ _ Hresponse)
      as (media_type & extension & Hmedia & Hconstructor & ->).
    repeat split. exists extension. repeat split; assumption.
  - destruct (file_response_raises E _ _ _ Hresponse) as (cls & text & ->).
    split; [reflexivity|]. exists file_path, filename. split; [reflexivity | exact Hresponse].
Qed.

Lemma accepted_tool_has_known_output_type_witness :
  shape_response default_env (QRGeneratorTool default_env) (PyStr "qr_code_596.png") =
    Raise (HTTPException 500 "Invalid tool output")
  /\ output_type (QRGeneratorTool default_env) = "file"
  /\ is_pair (PyStr "qr_code_596.png") = false.
Proof.
  split; [reflexivity|].
  destruct (accepted_tool_has_known_output_type default_env (QRGeneratorTool default_env)
              (PyStr "qr_code_596.png") eq_refl) as (Hkind & Hpair & _).
  split; [exact Hkind | exact Hpair].
Defined.

(** ** The input normaliser *)

Lemma assoc_app {A} (k : string) (l1 l2 : list (string * A)) :
  assoc k (l1 ++ l2) =
    match assoc k l1 with
    | Some a => Some a
    | None => assoc k l2
    end.
Proof.
  induction l1 as [|[k' a] rest IH]; [reflexivity|].
  simpl. destruct (String.eqb k k'); [reflexivity | exact IH].
Qed.

Lemma assoc_map_snd {A B} (f : A -> B) (k : string) (l : list (string * A)) :
  assoc k (List.map (fun kv => (fst kv, f (snd kv))) l) = f <$> assoc k l.
Proof.
  induction l as [|[k' a] rest IH]; [reflexivity|].
  simpl. destruct (String.eqb k k'); [reflexivity | exact IH].
Qed.

(** Building a dictionary item by item: the last item with a key is the
    one that stays. *)
Lemma fold_insert_lookup (items : list (string * PyVal)) (d : kwargs) (k : string) :
  fold_left (fun d kv => <[fst kv := snd kv]> d) items d !! k =
    match assoc k (List.rev items) with
    | Some v => Some v
    | None => d !! k
    end.
Proof.
  revert d. induction items as [|[k' v] rest IH]; intros d; [reflexivity|].
  simpl. rewrite IH, assoc_app. simpl.
  destruct (assoc k (List.rev rest)); [reflexivity|].
  destruct (String.eqb_spec k k') as [->|Hne].
  - apply lookup_insert_eq.
  - apply lookup_insert_ne. congruence.
Qed.

Lemma process_parts_app (E : Env) (tool_name : string)
    (before after : list (string * FormValue)) (input_data : kwargs) (fs : FS) :
  process_parts E tool_name (before ++ after) input_data fs =
    match process_parts E tool_name before input_data fs with
    | (Ok mid, fs1) => process_parts E tool_name after mid fs1
    | (Raise e, fs1) => (Raise e, fs1)
    end.
Proof.
  revert input_data fs. induction before as [|[key value] rest IH]; intros input_data fs;
    [reflexivity|].
  simpl. unfold bind.
  destruct (process_part E tool_name input_data key value fs) as [[mid|e] fs1];
    [apply IH | reflexivity].
Qed.

(** X10.  A request to a registered tool whose content type names
    neither [application/json] nor [multipart/form-data], or that has no
    content type, is refused with [HTTPException] 400 and the fixed text
    naming the two encodings; nothing is stored and the tool is not run. *)
Theorem unsupported_content_type
    (E : Env) (w : World) (tool_name : string) (tool : Tool) (request : Request)
    (Hregistered : assoc tool_name (TOOLS w) = Some tool)
    (Hjson : str_contains "application/json"
               (default "" (header_content_type request)) = false)
    (Hmultipart : str_contains "multipart/form-data"
                    (default "" (header_content_type request)) = false) :
  parse_input E tool_name request (files w) =
    (Raise (HTTPException 400
              "Content-Type must be application/json or multipart/form-data"), files w)
  /\ post_run E tool_name request w =
       (inl {| error := "Content-Type must be application/json or multipart/form-data";
               status_code := 400 |}, w).
Proof.
  assert (Hparse : parse_input E tool_name request (files w) =
            (Raise (HTTPException 400
                      "Content-Type must be application/json or multipart/form-data"),
             files w)).
  { unfold parse_input, try_except. rewrite Hjson, Hmultipart. reflexivity. }
  split; [exact Hparse|].
  unfold post_run. rewrite (run_tool_known E _ _ _ _ Hregistered), Hparse.
  destruct w; reflexivity.
Qed.

Lemma unsupported_content_type_witness :
  let request := {| header_content_type := None;
                    request_json := Ok (JObj [("data", JStr "hello")]);
                    request_form := Ok [] |} in
  post_run default_env "qr-generator" request (initial_world default_env ∅) =
    (inl {| error := "Content-Type must be application/json or multipart/form-data";
            status_code := 400 |}, initial_world default_env ∅).
Proof.
  intros request.
  apply (unsupported_content_type default_env (initial_world default_env ∅)
           "qr-generator" (QRGeneratorTool default_env) request); reflexivity.
Defined.

(** X11.  A JSON request whose body does not parse, or parses to
    anything but an object (a list, a string, a number, [null]), is
    refused with [HTTPException] 400 [Failed to parse request]; nothing
    is stored. *)
Theorem json_body_must_be_an_object
    (E : Env) (tool_name : string) (request : Request) (fs : FS)
    (Hjson : str_contains "application/json"
               (default "" (header_content_type request)) = true)
    (Hbody : match request_json request with
             | Ok document => is_json_object document = false
             | Raise e => is_http_exception e = false
             end) :
  parse_input E tool_name request fs =
    (Raise (HTTPException 400 "Failed to parse request"), fs).
Proof.
  unfold parse_input, try_except, bind, lift. rewrite Hjson.
  destruct (request_json request) as [document|e].
  - destruct document; try discriminate Hbody; reflexivity.
  - destruct e; try discriminate Hbody; reflexivity.
Qed.

Lemma json_body_must_be_an_object_witness :
  parse_input default_env "qr-generator" (json_request (JArr [JStr "hello"])) ∅ =
    (Raise (HTTPException 400 "Failed to parse request"), ∅).
Proof.
  apply (json_body_must_be_an_object default_env "qr-generator"
           (json_request (JArr [JStr "hello"])) ∅); reflexivity.
Defined.

(** X12.  A JSON request whose body is an object is normalised without
    touching the storage, and every member becomes a keyword argument
    under its own name with its own value; of two members with the same
    name the later one counts. *)
Theorem json_object_becomes_kwargs
    (E : Env) (tool_name : string) (request : Request)
    (members : list (string * json)) (fs : FS)
    (Hjson : str_contains "application/json"
               (default "" (header_content_type request)) = true)
    (Hbody : request_json request = Ok (JObj members)) :
  exists input_data,
    parse_input E tool_name request fs = (Ok input_data, fs)
    /\ forall key, input_data !! key = of_json <$> assoc key (List.rev members).
Proof.
  eexists. split.
  - unfold parse_input, try_except, bind, lift. rewrite Hjson, Hbody. reflexivity.
  - intros key. unfold dict_of_items. rewrite fold_insert_lookup.
    rewrite <- List.map_rev, assoc_map_snd.
    destruct (assoc key (List.rev members)); reflexivity.
Qed.

Lemma json_object_becomes_kwargs_witness :
  exists input_data,
    parse_input default_env "qr-generator"
      (json_request (JObj [("data", JStr "draft"); ("data", JStr "hello")])) ∅ =
      (Ok input_data, ∅)
    /\ input_data !! "data" = Some (PyStr "hello")
    /\ input_data !! "size" = None.
Proof.
  destruct (json_object_becomes_kwargs default_env "qr-generator"
              (json_request (JObj [("data", JStr "draft"); ("data", JStr "hello")]))
              [("data", JStr "draft"); ("data", JStr "hello")] ∅)
    as (input_data & Hparse & Hlookup); [reflexivity | reflexivity |].
  exists input_data. split; [exact Hparse|].
  rewrite !Hlookup. split; reflexivity.
Defined.

(** X13.  A form made of plain fields only is normalised without
    touching the storage: every field is bound under its own name to its
    own string, the later of two fields with the same name counts, and
    what was bound before stays under the other names. *)
Theorem plain_fields_are_bound_verbatim
    (E : Env) (tool_name : string) (fields : list (string * string))
    (input_data : kwargs) (fs : FS) :
  exists out,
    process_parts E tool_name
      (List.map (fun kv => (fst kv, FormField (snd kv))) fields) input_data fs = (Ok out, fs)
    /\ forall key,
         out !! key = match assoc key (List.rev fields) with
                      | Some value => Some (PyStr value)
                      | None => input_data !! key
                      end.
Proof.
  revert input_data. induction fields as [|[k v] rest IH]; intros input_data.
  - exists input_data. split; reflexivity.
  - destruct (IH (<[k := PyStr v]> input_data)) as (out & Hrun & Hlookup).
    exists out. split; [exact Hrun|].
    intros key. rewrite Hlookup. simpl. rewrite assoc_app. simpl.
    destruct (assoc key (List.rev rest)); [reflexivity|].
    destruct (String.eqb_spec key k) as [->|Hne].
    + apply lookup_insert_eq.
    + apply lookup_insert_ne. congruence.
Qed.

Lemma process_parts_without_fastapi_uploads (E : Env) (tool_name : string)
    (parts : list (string * FormValue)) (input_data : kwargs) (fs : FS) :
  Forall (fun kv => match snd kv with UploadFile _ _ => False | _ => True end) parts ->
  exists out,
    process_parts E tool_name parts input_data fs = (Ok out, fs)
    /\ forall key,
         out !! key = match assoc key (List.rev parts) with
                      | Some (FormField value) => Some (PyStr value)
                      | Some (FormFile filename content) =>
                          Some (upload_object filename content)
                      | Some (UploadFile _ _) => None
                      | None => input_data !! key
                      end.
Proof.
  intros Hparts. revert input_data.
  induction Hparts as [|[k v] rest Hv _ IH]; intros input_data.
  - exists input_data. split; reflexivity.
  - destruct v as [filename content|value|filename content]; [destruct Hv| |].
    + destruct (IH (<[k := PyStr value]> input_data)) as (out & Hrun & Hlookup).
      exists out. split; [exact Hrun|].
      intros key. rewrite Hlookup. simpl. rewrite assoc_app. simpl.
      destruct (assoc key (List.rev rest)); [reflexivity|].
      destruct (String.eqb_spec key k) as [->|Hne].
      * apply lookup_insert_eq.
      * apply lookup_insert_ne. congruence.
    + destruct (IH (<[k := upload_object filename content]> input_data))
        as (out & Hrun & Hlookup).
      exists out. split; [exact Hrun|].
      intros key. rewrite Hlookup. simpl. rewrite assoc_app. simpl.
      destruct (assoc key (List.rev rest)); [reflexivity|].
      destruct (String.eqb_spec key k) as [->|Hne].
      * apply lookup_insert_eq.
      * apply lookup_insert_ne. congruence.
Qed.

(** X14.  A file part as [request.form()] builds it is not an instance
    of the class the loop over the form tests for.  A multipart form made
    of such parts and of plain fields is normalised without storing
    anything and without a look at the size of a file: every file part
    is bound under its own name to the upload object itself, every field
    to its string, the later of two parts with the same name counts; the
    renaming of [file_file_path] is all that follows. *)
Theorem form_files_are_bound_as_objects
    (E : Env) (tool_name : string) (request : Request)
    (parts : list (string * FormValue)) (fs : FS)
    (Hjson : str_contains "application/json"
               (default "" (header_content_type request)) = false)
    (Hmultipart : str_contains "multipart/form-data"
                    (default "" (header_content_type request)) = true)
    (Hform : request_form request = Ok parts)
    (Hparts : Forall (fun kv => match snd kv with
                                | UploadFile _ _ => False
                                | _ => True
                                end) parts) :
  exists bound,
    parse_input E tool_name request fs = (Ok (rename_file_path bound), fs)
    /\ forall key,
         bound !! key = match assoc key (List.rev parts) with
                        | Some (FormField value) => Some (PyStr value)
                        | Some (FormFile filename content) =>
                            Some (upload_object filename content)
                        | _ => None
                        end.
Proof.
  destruct (process_parts_without_fastapi_uploads E tool_name parts ∅ fs Hparts)
    as (bound & Hrun & Hlookup).
  exists bound. split.
  - unfold parse_input, try_except, bind, lift, ret.
    rewrite Hjson, Hmultipart, Hform, Hrun. reflexivity.
  - intros key. rewrite Hlookup.
    destruct (assoc key (List.rev parts)) as [[| |]|]; reflexivity.
Qed.

Lemma form_files_are_bound_as_objects_witness :
  exists bound,
    parse_input small_env "image-converter" oversize_second_request ∅ =
      (Ok (rename_file_path bound), ∅)
    /\ bound !! "mask" =
         Some (upload_object "mask.png" [Byte.x89; Byte.x50; Byte.x4e; Byte.x47; Byte.x0d])
    /\ bound !! "mask_file_path" = None
    /\ len [Byte.x89; Byte.x50; Byte.x4e; Byte.x47; Byte.x0d]
         > MAX_FILE_SIZE (settings small_env).
Proof.
  destruct (form_files_are_bound_as_objects small_env "image-converter"
              oversize_second_request
              [("image", FormFile "photo.png" png_bytes);
               ("mask", FormFile "mask.png"
                          [Byte.x89; Byte.x50; Byte.x4e; Byte.x47; Byte.x0d])] ∅)
    as (bound & Hparse & Hlookup);
    [reflexivity | reflexivity | reflexivity | repeat constructor |].
  exists bound. split; [exact Hparse|].
  rewrite !Hlookup. repeat split.
Defined.

(** X15.  The two image tools look for their image under
    [image_file_path] only.  A request to one of them that is normalised
    to arguments without a key [self] and with no image under that name,
    or with an empty one, is refused: the tool raises
    [ToolExecutionException] with [No image file provided] before it
    validates anything, the dispatcher raises [HTTPException] 500 with
    the same text, and the storage is as the normaliser left it.  A file
    sent under the part name [image] is such a request. *)
Theorem image_tools_need_image_file_path
    (E : Env) (w : World) (tool_name : string) (tool : Tool) (request : Request)
    (input_data : kwargs) (fs1 : FS)
    (Hregistered : assoc tool_name (TOOLS w) = Some tool)
    (Htool : tool = ImageConverterTool E \/ tool = ImageCompressorTool E)
    (Hparse : parse_input E tool_name request (files w) = (Ok input_data, fs1))
    (Hself : input_data !! "self" = None)
    (Himage : truthy (default PyNone (input_data !! "image_file_path")) = false) :
  run tool input_data fs1 =
    (Raise (ToolError ToolExecutionException "No image file provided"), fs1)
  /\ run_tool E tool_name request w =
       (Raise (HTTPException 500 "No image file provided"),
        {| TOOLS := TOOLS w; files := fs1 |}).
Proof.
  assert (Hrun : run tool input_data fs1 =
            (Raise (ToolError ToolExecutionException "No image file provided"), fs1)).
  { destruct Htool as [->| ->]; cbn [run ImageConverterTool ImageCompressorTool];
      rewrite Himage; reflexivity. }
  split; [exact Hrun|].
  rewrite (run_tool_known E _ _ _ _ Hregistered), Hparse.
  assert (Hcall : call_run tool input_data fs1 =
            (Raise (ToolError ToolExecutionException "No image file provided"), fs1)).
  { unfold call_run. rewrite Hself. exact Hrun. }
  rewrite (execute_tool_raises _ _ _ _ _ Hcall). reflexivity.
Qed.

Lemma image_tools_need_image_file_path_witness :
  run_tool default_env "image-converter" oversize_second_request
    (initial_world default_env ∅) =
    (Raise (HTTPException 500 "No image file provided"), initial_world default_env ∅).
Proof.
  destruct (image_tools_need_image_file_path default_env (initial_world default_env ∅)
              "image-converter" (ImageConverterTool default_env) oversize_second_request
              (<["mask" := upload_object "mask.png"
                             [Byte.x89; Byte.x50; Byte.x4e; Byte.x47; Byte.x0d]]>
                 (<["image" := upload_object "photo.png" png_bytes]> ∅)) ∅)
    as [_ Hrun]; [reflexivity | left; reflexivity | reflexivity | reflexivity | reflexivity |].
  exact Hrun.
Defined.

(** ** The dispatcher *)

Lemma parse_input_raises_http
    (E : Env) (tool_name : string) (request : Request) (e : exn) (fs fs' : FS) :
  parse_input E tool_name request fs = (Raise e, fs') -> is_http_exception e = true.
Proof.
  unfold parse_input.
  match goal with |- try_except ?b _ _ = _ -> _ => generalize b end.
  intros body. unfold try_except, raise.
  destruct (body fs) as [[input_data|e0] fs0]; [discriminate|].
  destruct e0; intros [= <- <-]; reflexivity.
Qed.

Lemma shape_response_raises (E : Env) (tool : Tool) (result_ : PyVal) (e : exn) :
  shape_response E tool result_ = Raise e ->
  is_http_exception e = true
  \/ output_type tool = "file"
     /\ exists file_path filename,
          result_ = PyTuple [file_path; filename]
          /\ file_response E file_path filename = Raise e.
Proof.
  unfold shape_response.
  destruct (String.eqb (output_type tool) "json"); [discriminate|].
  destruct (String.eqb_spec (output_type tool) "file") as [Hkind|_];
    [|intros [= <-]; left; reflexivity].
  destruct result_ as [| | | | | | |[|file_path [|filename [|extra rest]]]| |];
    try (intros [= <-]; left; reflexivity).
  intros Hresponse. right. split; [exact Hkind|]. eauto.
Qed.

(** X16.  When the call of [run] on a registered tool raises an
    exception that is not a [ToolExecutionException], the text of that
    exception goes no further: the dispatcher raises [HTTPException] 500
    with the fixed detail [Tool execution failed], and the storage is as
    the call left it. *)
Theorem unexpected_exception_is_hidden
    (E : Env) (w : World) (tool_name : string) (tool : Tool) (request : Request)
    (input_data : kwargs) (e : exn) (fs1 fs2 : FS)
    (Hregistered : assoc tool_name (TOOLS w) = Some tool)
    (Hparse : parse_input E tool_name request (files w) = (Ok input_data, fs1))
    (Hcall : call_run tool input_data fs1 = (Raise e, fs2))
    (Hclass : is_tool_error e = false) :
  run_tool E tool_name request w =
    (Raise (HTTPException 500 "Tool execution failed"),
     {| TOOLS := TOOLS w; files := fs2 |}).
Proof.
  rewrite (run_tool_known E _ _ _ _ Hregistered), Hparse.
  rewrite (execute_tool_raises _ _ _ _ _ Hcall).
  destruct e; try discriminate Hclass; reflexivity.
Qed.

Lemma unexpected_exception_is_hidden_witness :
  run_tool default_env "crashing" (json_request (JObj [])) faulty_world =
    (Raise (HTTPException 500 "Tool execution failed"), faulty_world).
Proof.
  apply (unexpected_exception_is_hidden default_env faulty_world "crashing" crashing_tool
           (json_request (JObj [])) ∅
           (PyException "RuntimeError" "no such table: jobs") ∅ ∅); reflexivity.
Defined.

(** X17.  When the call of [run] on a registered tool raises
    [ToolExecutionException] or one of its subclasses, the dispatcher
    raises [HTTPException] with the message of the exception as its
    detail, with status 400 for [InvalidInputException] and
    [FileProcessingException] and status 500 for every other class,
    [ToolNotFoundException] raised inside a tool included. *)
Theorem tool_error_status
    (E : Env) (w : World) (tool_name : string) (tool : Tool) (request : Request)
    (input_data : kwargs) (cls : ToolErrorClass) (message : string) (fs1 fs2 : FS)
    (Hregistered : assoc tool_name (TOOLS w) = Some tool)
    (Hparse : parse_input E tool_name request (files w) = (Ok input_data, fs1))
    (Hcall : call_run tool input_data fs1 = (Raise (ToolError cls message), fs2)) :
  run_tool E tool_name request w =
    (Raise (HTTPException
              match cls with
              | InvalidInputException | FileProcessingException => 400
              | _ => 500
              end message),
     {| TOOLS := TOOLS w; files := fs2 |}).
Proof.
  rewrite (run_tool_known E _ _ _ _ Hregistered), Hparse.
  rewrite (execute_tool_raises _ _ _ _ _ Hcall).
  destruct cls; reflexivity.
Qed.

Lemma tool_error_status_witness :
  run_tool default_env "image-compressor"
    (json_request (JObj [("image_file_path", JStr "photo.png"); ("quality", JInt 500)]))
    (initial_world default_env ∅) =
    (Raise (HTTPException 400 "Invalid input: quality: out of range"),
     initial_world default_env ∅).
Proof.
  apply (tool_error_status default_env (initial_world default_env ∅) "image-compressor"
           (ImageCompressorTool default_env)
           (json_request (JObj [("image_file_path", JStr "photo.png"); ("quality", JInt 500)]))
           (<["quality" := PyInt 500]> (<["image_file_path" := PyStr "photo.png"]> ∅))
           InvalidInputException "Invalid input: quality: out of range" ∅ ∅);
    reflexivity.
Defined.

(** X18.  When a registered tool of kind [file] returns a pair whose
    second element is neither a string nor a path-like object, the pair
    passes the check of the dispatcher, [Path] raises [TypeError] on the
    name and that exception leaves [run_tool]; the handler of
    [main.py] for it is the one for unexpected exceptions, which returns
    the text [An unexpected error occurred] with the number 500. *)
Theorem pair_without_a_name_is_unexpected
    (E : Env) (w : World) (tool_name : string) (tool : Tool) (request : Request)
    (input_data : kwargs) (file_path filename : PyVal) (fs1 fs2 : FS)
    (Hregistered : assoc tool_name (TOOLS w) = Some tool)
    (Hparse : parse_input E tool_name request (files w) = (Ok input_data, fs1))
    (Hcall : call_run tool input_data fs1 = (Ok (PyTuple [file_path; filename]), fs2))
    (Hkind : output_type tool = "file")
    (Hname : is_str filename = false)
    (Hpath : Path_of E filename = None) :
  run_tool E tool_name request w =
    (Raise (PyException "TypeError" (path_type_error E filename)),
     {| TOOLS := TOOLS w; files := fs2 |})
  /\ handle_exception (PyException "TypeError" (path_type_error E filename)) =
       {| error := "An unexpected error occurred"; status_code := 500 |}.
Proof.
  split; [|reflexivity].
  rewrite (run_tool_known E _ _ _ _ Hregistered), Hparse.
  rewrite (execute_tool_returns _ _ _ _ _ Hcall).
  unfold shape_response, file_response, get_media_type_and_extension, Path, rbind.
  rewrite Hkind, Hpath. simpl.
  destruct filename; try discriminate Hname; reflexivity.
Qed.

Lemma pair_without_a_name_is_unexpected_witness :
  run_tool default_env "numbered" (json_request (JObj [])) faulty_world =
    (Raise (PyException "TypeError"
              "expected str, bytes or os.PathLike object, not int"), faulty_world).
Proof.
  destruct (pair_without_a_name_is_unexpected default_env faulty_world "numbered"
              numbered_tool (json_request (JObj [])) ∅
              (PyStr "/tmp/tool-execution/numbered/7") (PyInt 7) ∅ ∅)
    as [Hrun _]; [reflexivity | reflexivity | reflexivity | reflexivity | reflexivity
                 | reflexivity |].
  exact Hrun.
Defined.

(** X19.  The exceptions that leave [run_tool]: [ToolNotFoundException]
    for a name that is not registered and for nothing else; for a
    registered name an [HTTPException], or the exception the constructor
    of [Path] or of [FileResponse] raised on the pair a [file] tool
    returned.  A [KeyError] never leaves it, nor does any exception a
    tool raised. *)
Theorem run_tool_exception_classes
    (E : Env) (w : World) (tool_name : string) (request : Request) :
  match fst (run_tool E tool_name request w) with
  | Ok _ => has_key tool_name (TOOLS w) = true
  | Raise (ToolError cls _) =>
      cls = ToolNotFoundException /\ has_key tool_name (TOOLS w) = false
  | Raise (HTTPException _ _) => has_key tool_name (TOOLS w) = true
  | Raise (PyException cls text) =>
      exists tool input_data fs1 fs2 file_path filename,
        assoc tool_name (TOOLS w) = Some tool
        /\ output_type tool = "file"
        /\ call_run tool input_data fs1 = (Ok (PyTuple [file_path; filename]), fs2)
        /\ file_response E file_path filename = Raise (PyException cls text)
  | Raise (KeyError _) => False
  end.
Proof.
  unfold has_key.
  destruct (assoc tool_name (TOOLS w)) as [tool|] eqn:Hlook.
  2:{ rewrite (run_tool_unknown E _ request _ Hlook). split; reflexivity. }
  rewrite (run_tool_known E _ _ request _ Hlook).
  destruct (parse_input E tool_name request (files w)) as [[input_data|e] fs1] eqn:Hparse.
  2:{ apply parse_input_raises_http in Hparse. destruct e; try discriminate Hparse.
      reflexivity. }
  destruct (call_run tool input_data fs1) as [[result_|e] fs2] eqn:Hcall.
  2:{ rewrite (execute_tool_raises _ _ _ _ _ Hcall).
      destruct e as [[] ?| | |]; reflexivity. }
  rewrite (execute_tool_returns _ _ _ _ _ Hcall). simpl.
  destruct (shape_response E tool result_) as [response|e] eqn:Hshape; [reflexivity|].
  apply shape_response_raises in Hshape
    as [Hhttp|(Hkind & file_path & filename & -> & Hresponse)].
  - destruct e; try discriminate Hhttp. reflexivity.
  - destruct (file_response_raises E _ _ _ Hresponse) as (cls & text & ->).
    exists tool, input_data, fs1, fs2, file_path, filename. repeat split; assumption.
Qed.

(** X28.  The arguments of a request are handed to [run] as keyword
    arguments, next to the tool itself as [self].  A request to a
    registered tool that is normalised to arguments with a key [self]
    never reaches the body of [run]: the call raises [TypeError], and the
    dispatcher raises [HTTPException] 500 [Tool execution failed],
    whatever the tool and the other arguments; the storage is as the
    normaliser left it. *)
Theorem argument_named_self_is_refused
    (E : Env) (w : World) (tool_name : string) (tool : Tool) (request : Request)
    (input_data : kwargs) (value : PyVal) (fs1 : FS)
    (Hregistered : assoc tool_name (TOOLS w) = Some tool)
    (Hparse : parse_input E tool_name request (files w) = (Ok input_data, fs1))
    (Hself : input_data !! "self" = Some value) :
  call_run tool input_data fs1 =
    (Raise (PyException "TypeError"
              (class_name tool +:+ ".run() got multiple values for argument 'self'")), fs1)
  /\ run_tool E tool_name request w =
       (Raise (HTTPException 500 "Tool execution failed"),
        {| TOOLS := TOOLS w; files := fs1 |}).
Proof.
  assert (Hcall : call_run tool input_data fs1 =
            (Raise (PyException "TypeError"
                      (class_name tool +:+ ".run() got multiple values for argument 'self'")),
             fs1)).
  { unfold call_run. rewrite Hself. reflexivity. }
  split; [exact Hcall|].
  rewrite (run_tool_known E _ _ _ _ Hregistered), Hparse.
  rewrite (execute_tool_raises _ _ _ _ _ Hcall). reflexivity.
Qed.

Lemma argument_named_self_is_refused_witness :
  run_tool default_env "qr-generator"
    (json_request (JObj [("data", JStr "hello"); ("self", JInt 1)]))
    (initial_world default_env ∅) =
    (Raise (HTTPException 500 "Tool execution failed"), initial_world default_env ∅).
Proof.
  destruct (argument_named_self_is_refused default_env (initial_world default_env ∅)
              "qr-generator" (QRGeneratorTool default_env)
              (json_request (JObj [("data", JStr "hello"); ("self", JInt 1)]))
              (<["self" := PyInt 1]> (<["data" := PyStr "hello"]> ∅)) (PyInt 1) ∅)
    as [_ Hrun]; [reflexivity | reflexivity | reflexivity |].
  exact Hrun.
Defined.

(** ** The QR generator *)

Lemma str_contains_cons (sub : string) (c : ascii) (rest : string) :
  str_contains sub (String c rest) =
    startswith sub (String c rest) || str_contains sub rest.
Proof. reflexivity. Qed.

(** The decimal digits of a number are ASCII digits. *)
Lemma pretty_N_char_digit (x : N) : is_ascii_digit (pretty_N_char x) = true.
Proof. unfold pretty_N_char. repeat case_match; reflexivity. Qed.

Lemma pretty_N_go_digits (x : N) (s : string) :
  str_filter is_ascii_digit s = s ->
  str_filter is_ascii_digit (pretty_N_go x s) = pretty_N_go x s.
Proof.
  revert s. induction (N.lt_wf_0 x) as [x _ IH]; intros s Hs.
  destruct (decide (x = 0)%N) as [->|Hpos].
  - rewrite pretty_N_go_0. exact Hs.
  - rewrite pretty_N_go_step by lia. apply IH.
    + apply N.div_lt; lia.
    + simpl. rewrite pretty_N_char_digit, Hs. reflexivity.
Qed.

Lemma pretty_Z_digits (z : Z) :
  0 <= z -> str_filter is_ascii_digit (pretty z) = pretty z.
Proof.
  intros Hz. destruct z as [|p|p]; [reflexivity| |lia].
  unfold pretty, pretty_Z, pretty, pretty_positive, pretty, pretty_N.
  destruct (decide (N.pos p = 0)%N); [reflexivity|].
  apply pretty_N_go_digits. reflexivity.
Qed.

Lemma digit_is_safe (E : Env) (c : ascii) :
  is_ascii_digit c = true -> safe_char E c = true.
Proof.
  destruct c as [[] [] [] [] [] [] [] []]; try discriminate; reflexivity.
Qed.

(** Digits followed by [.png]: all safe, no two dots in a row. *)
Lemma digits_png_safe (E : Env) (digits : string) :
  str_filter is_ascii_digit digits = digits ->
  str_filter (safe_char E) (digits +:+ ".png") = digits +:+ ".png"
  /\ str_contains ".." (digits +:+ ".png") = false.
Proof.
  induction digits as [|c rest IH]; [intros _; split; reflexivity|].
  intros Hdigits. cbn [str_filter] in Hdigits.
  destruct (is_ascii_digit c) eqn:Hc.
  - injection Hdigits as Hrest. destruct (IH Hrest) as [Hsafe Hdots].
    change (String c rest +:+ ".png") with (String c (rest +:+ ".png")).
    split.
    + cbn [str_filter]. rewrite (digit_is_safe E c Hc), Hsafe. reflexivity.
    + assert (Hstart : startswith ".." (String c (rest +:+ ".png")) = false).
      { cbn [startswith].
        destruct (Ascii.eqb_spec "." c) as [<-|_]; [discriminate Hc | reflexivity]. }
      rewrite str_contains_cons, Hstart, Hdots. reflexivity.
  - pose proof (length_str_filter is_ascii_digit rest) as Hlen.
    rewrite Hdigits in Hlen. simpl in Hlen. lia.
Qed.

(** The name [generate_qr_code] makes up is left as it is by
    [clean_filename]. *)
Lemma clean_filename_qr_name (E : Env) (h : Z) :
  clean_filename E ("qr_code_" +:+ pretty (h mod 10000000) +:+ ".png") =
    Ok ("qr_code_" +:+ pretty (h mod 10000000) +:+ ".png").
Proof.
  assert (Hdigits : str_filter is_ascii_digit (pretty (h mod 10000000)) =
                    pretty (h mod 10000000)).
  { apply pretty_Z_digits. apply Z.mod_pos_bound. lia. }
  destruct (digits_png_safe E _ Hdigits) as [Hsafe Hdots].
  set (tail := pretty (h mod 10000000) +:+ ".png") in *.
  change ("qr_code_" +:+ tail)
    with (String "q" (String "r" (String "_" (String "c" (String "o"
           (String "d" (String "e" (String "_" tail)))))))).
  apply clean_filename_fixed_point.
  - reflexivity.
  - cbn [str_filter].
    change (safe_char E "q") with true. change (safe_char E "r") with true.
    change (safe_char E "_") with true. change (safe_char E "c") with true.
    change (safe_char E "o") with true. change (safe_char E "d") with true.
    change (safe_char E "e") with true.
    cbn iota. rewrite Hsafe. reflexivity.
  - assert (Hstep : forall c rest,
              Ascii.eqb "." c = false ->
              str_contains ".." (String c rest) = str_contains ".." rest).
    { intros c rest Hc. rewrite str_contains_cons.
      cbn [startswith]. rewrite Hc. reflexivity. }
    rewrite !Hstep by reflexivity. exact Hdots.
Qed.

Lemma generate_qr_code_ok (E : Env) (data : string) (img : bytes) (h : Z) (fs : FS) :
  let filename := "qr_code_" +:+ pretty (h mod 10000000) +:+ ".png" in
  let file_path := path_join E (path_join E (temp_dir E) "qr_generator")
                     (filename +:+ ".png") in
  qr_make_image E data = Ok img ->
  py_hash E (PyStr data) = Ok h ->
  mkdir_error E fs (path_join E (temp_dir E) "qr_generator") = None ->
  write_error E fs file_path = None ->
  generate_qr_code E data fs = (Ok (file_path, filename), <[file_path := img]> fs).
Proof.
  intros filename file_path Himg Hhash Hmkdir Hwrite.
  unfold generate_qr_code, generate_output_path, try_except, bind, lift, ret, mkdir,
    write_bytes.
  rewrite Himg, Hhash, Hmkdir, clean_filename_qr_name.
  cbn [str_truthy startswith Ascii.eqb Bool.eqb fst snd].
  fold filename. fold file_path. rewrite Hwrite. reflexivity.
Qed.

(** X20.  A valid request to qr-generator, one without an argument named
    [self], on a system that lets the directory and the file be written
    and the response be built, is answered with a [FileResponse] of media
    type [image/png]: the name in it is [qr_code_] followed by
    [hash(data)] modulo 10000000 and [.png]; the image is stored under
    that name followed by a second [.png], in [temp_dir / qr_generator],
    and nothing else in the storage changes. *)
Theorem qr_code_is_served_as_png
    (E : Env) (w : World) (request : Request) (input_data : kwargs) (fs1 : FS)
    (data : string) (img : bytes) (h : Z)
    (filename := "qr_code_" +:+ pretty (h mod 10000000) +:+ ".png")
    (file_path := path_join E (path_join E (temp_dir E) "qr_generator")
                    (filename +:+ ".png"))
    (Hregistered : assoc "qr-generator" (TOOLS w) = Some (QRGeneratorTool E))
    (Hparse : parse_input E "qr-generator" request (files w) = (Ok input_data, fs1))
    (Hself : input_data !! "self" = None)
    (Hvalid : QRGeneratorInput E input_data = Ok data)
    (Himg : qr_make_image E data = Ok img)
    (Hhash : py_hash E (PyStr data) = Ok h)
    (Hmkdir : mkdir_error E fs1 (path_join E (temp_dir E) "qr_generator") = None)
    (Hwrite : write_error E fs1 file_path = None)
    (Hsuffix : path_suffix E filename = ".png")
    (Hresponse : FileResponse_error E (PyStr file_path) (PyStr filename)
                   "image/png" ".png" = None) :
  run_tool E "qr-generator" request w =
    (Ok (FileResponse (PyStr file_path) (PyStr filename) "image/png"
           [("X-File-Extension", PyStr ".png"); ("X-File-Name", PyStr filename)]),
     {| TOOLS := TOOLS w; files := <[file_path := img]> fs1 |}).
Proof.
  assert (Hcall : call_run (QRGeneratorTool E) input_data fs1 =
                    (Ok (PyTuple [PyStr file_path; PyStr filename]),
                     <[file_path := img]> fs1)).
  { rewrite (call_run_without_self _ _ Hself).
    cbn [run QRGeneratorTool]. unfold try_except, bind, lift, ret.
    rewrite Hvalid.
    rewrite (generate_qr_code_ok E data img h fs1 Himg Hhash Hmkdir Hwrite).
    reflexivity. }
  rewrite (run_tool_known E _ _ _ _ Hregistered), Hparse.
  rewrite (execute_tool_returns _ _ _ _ _ Hcall).
  unfold shape_response, file_response, get_media_type_and_extension, Path, rbind.
  cbn [output_type QRGeneratorTool]. rewrite Hsuffix.
  change (lower E ".png") with ".png". cbn [String.eqb Ascii.eqb Bool.eqb fst snd default
    assoc MEDIA_TYPES].
  simpl. rewrite Hresponse. reflexivity.
Qed.

Lemma qr_code_is_served_as_png_witness :
  run_tool default_env "qr-generator"
    (json_request (JObj [("data", JStr "https://example.com")]))
    (initial_world default_env ∅) =
    (Ok (FileResponse (PyStr "/tmp/tool-execution/qr_generator/qr_code_596.png.png")
           (PyStr "qr_code_596.png") "image/png"
           [("X-File-Extension", PyStr ".png"); ("X-File-Name", PyStr "qr_code_596.png")]),
     {| TOOLS := initial_TOOLS default_env;
        files := <["/tmp/tool-execution/qr_generator/qr_code_596.png.png" := png_bytes]> ∅ |}).
Proof.
  apply (qr_code_is_served_as_png default_env (initial_world default_env ∅)
           (json_request (JObj [("data", JStr "https://example.com")]))
           (<["data" := PyStr "https://example.com"]> ∅) ∅
           "https://example.com" png_bytes 596); reflexivity.
Defined.

(** X21.  When the input of qr-generator, without an argument named
    [self], does not validate, the dispatcher raises [HTTPException] 400
    with [Invalid input: ] followed by the text of the validation error;
    no QR code is made and nothing is stored. *)
Theorem qr_invalid_input_is_a_bad_request
    (E : Env) (w : World) (request : Request) (input_data : kwargs) (fs1 : FS) (e : exn)
    (Hregistered : assoc "qr-generator" (TOOLS w) = Some (QRGeneratorTool E))
    (Hparse : parse_input E "qr-generator" request (files w) = (Ok input_data, fs1))
    (Hself : input_data !! "self" = None)
    (Hinvalid : QRGeneratorInput E input_data = Raise e) :
  run_tool E "qr-generator" request w =
    (Raise (HTTPException 400 ("Invalid input: " +:+ str_exn E e)),
     {| TOOLS := TOOLS w; files := fs1 |}).
Proof.
  assert (Hcall : call_run (QRGeneratorTool E) input_data fs1 =
                    (Raise (ToolError InvalidInputException
                              ("Invalid input: " +:+ str_exn E e)), fs1)).
  { rewrite (call_run_without_self _ _ Hself).
    cbn [run QRGeneratorTool]. unfold try_except, bind, lift, raise.
    rewrite Hinvalid. reflexivity. }
  rewrite (run_tool_known E _ _ _ _ Hregistered), Hparse.
  rewrite (execute_tool_raises _ _ _ _ _ Hcall). reflexivity.
Qed.

Lemma qr_invalid_input_is_a_bad_request_witness :
  run_tool default_env "qr-generator" (json_request (JObj [("data", JInt 42)]))
    (initial_world default_env ∅) =
    (Raise (HTTPException 400 "Invalid input: data: a string is required"),
     initial_world default_env ∅).
Proof.
  apply (qr_invalid_input_is_a_bad_request default_env (initial_world default_env ∅)
           (json_request (JObj [("data", JInt 42)]))
           (<["data" := PyInt 42]> ∅) ∅
           (PyException "ValidationError" "data: a string is required")); reflexivity.
Defined.

(** X22.  When the QR library fails on valid input without an argument
    named [self], the dispatcher raises [HTTPException] 500 with
    [Failed to generate QR code: ] followed by the text of the library's
    exception; nothing is stored. *)
Theorem qr_library_failure_is_reported
    (E : Env) (w : World) (request : Request) (input_data : kwargs) (fs1 : FS)
    (data : string) (e : exn)
    (Hregistered : assoc "qr-generator" (TOOLS w) = Some (QRGeneratorTool E))
    (Hparse : parse_input E "qr-generator" request (files w) = (Ok input_data, fs1))
    (Hself : input_data !! "self" = None)
    (Hvalid : QRGeneratorInput E input_data = Ok data)
    (Hfail : qr_make_image E data = Raise e) :
  run_tool E "qr-generator" request w =
    (Raise (HTTPException 500 ("Failed to generate QR code: " +:+ str_exn E e)),
     {| TOOLS := TOOLS w; files := fs1 |}).
Proof.
  assert (Hcall : call_run (QRGeneratorTool E) input_data fs1 =
                    (Raise (ToolError ToolExecutionException
                              ("Failed to generate QR code: " +:+ str_exn E e)), fs1)).
  { rewrite (call_run_without_self _ _ Hself).
    cbn [run QRGeneratorTool].
    unfold generate_qr_code, try_except, bind, lift, raise.
    rewrite Hvalid, Hfail. reflexivity. }
  rewrite (run_tool_known E _ _ _ _ Hregistered), Hparse.
  rewrite (execute_tool_raises _ _ _ _ _ Hcall). reflexivity.
Qed.

Lemma qr_library_failure_is_reported_witness :
  run_tool (qr_overflowing default_env) "qr-generator"
    (json_request (JObj [("data", JStr "https://example.com")]))
    (initial_world (qr_overflowing default_env) ∅) =
    (Raise (HTTPException 500 "Failed to generate QR code: Code length overflow"),
     initial_world (qr_overflowing default_env) ∅).
Proof.
  apply (qr_library_failure_is_reported (qr_overflowing default_env)
           (initial_world (qr_overflowing default_env) ∅)
           (json_request (JObj [("data", JStr "https://example.com")]))
           (<["data" := PyStr "https://example.com"]> ∅) ∅
           "https://example.com"
           (PyException "DataOverflowError" "Code length overflow")); reflexivity.
Defined.

(** ** The image tools *)

Lemma compress_image_not_object (E : Env) (input_path : PyVal) (quality : Z) (fs : FS) :
  not_object input_path ->
  compress_image E input_path quality fs =
    (Raise (PyException "AttributeError"
              ("'" +:+ type_name input_path +:+ "' object has no attribute 'file'")), fs).
Proof.
  intros H. unfold compress_image, try_except, bind, lift, raise.
  rewrite (getattr_not_object _ _ H). reflexivity.
Qed.

Lemma compressor_run_not_object (E : Env) (input_data : kwargs) (fs : FS) :
  no_objects input_data ->
  exists cls message,
    run (ImageCompressorTool E) input_data fs = (Raise (ToolError cls message), fs).
Proof.
  intros H. cbn [run ImageCompressorTool].
  assert (Hv : not_object (default PyNone (input_data !! "image_file_path"))).
  { destruct (input_data !! "image_file_path") as [v|] eqn:Hlook; [|exact I].
    exact (map_Forall_lookup_1 _ _ _ _ H Hlook). }
  destruct (truthy (default PyNone (input_data !! "image_file_path"))); cbn [negb].
  2:{ eexists _, _. reflexivity. }
  unfold try_except, bind, lift, raise, ret.
  destruct (ImageCompressorInput E input_data) as [quality|e].
  - rewrite (compress_image_not_object _ _ _ _ Hv). eexists _, _. reflexivity.
  - eexists _, _. reflexivity.
Qed.

Lemma parse_json_keeps_storage
    (E : Env) (tool_name : string) (request : Request) (fs : FS) :
  str_contains "application/json" (default "" (header_content_type request)) = true ->
  snd (parse_input E tool_name request fs) = fs.
Proof.
  intros Hjson. unfold parse_input, try_except, bind, lift, ret, raise.
  rewrite Hjson.
  destruct (request_json request) as [j|e]; [|destruct e; reflexivity].
  destruct (keys_of (of_json j)) as [d|e]; [|destruct e]; reflexivity.
Qed.

(** X23.  No JSON request to image-converter or to image-compressor is
    answered with a file.  The arguments of a JSON request hold numbers,
    strings, lists and the like and no upload object; so the run of the
    tool ends in an exception, or is not reached, the dispatcher raises
    [HTTPException], and the storage is not touched.  A path sent as a
    string is of no use: [compress_image] raises [AttributeError] at
    [input_path.file] before any image is opened. *)
Theorem json_request_to_image_tool_returns_no_file
    (E : Env) (w : World) (tool_name : string) (tool : Tool) (request : Request)
    (Hregistered : assoc tool_name (TOOLS w) = Some tool)
    (Htool : tool = ImageConverterTool E \/ tool = ImageCompressorTool E)
    (Hjson : str_contains "application/json"
               (default "" (header_content_type request)) = true) :
  (exists status_code detail,
     run_tool E tool_name request w = (Raise (HTTPException status_code detail), w))
  /\ forall stored_path quality fs,
       compress_image E (PyStr stored_path) quality fs =
         (Raise (PyException "AttributeError" "'str' object has no attribute 'file'"), fs).
Proof.
  split; [|intros; exact (compress_image_not_object E (PyStr stored_path) _ _ I)].
  rewrite (run_tool_known E _ _ _ _ Hregistered).
  pose proof (parse_json_keeps_storage E tool_name request (files w) Hjson) as Hkept.
  destruct (parse_input E tool_name request (files w)) as [[input_data|e] fs1] eqn:Hparse;
    cbn [snd] in Hkept; subst fs1.
  2:{ apply parse_input_raises_http in Hparse. destruct e; try discriminate Hparse.
      destruct w; eauto. }
  apply (parse_json_no_objects E _ _ _ _ _ Hjson) in Hparse.
  destruct (input_data !! "self") as [value|] eqn:Hself.
  - assert (Hcall : call_run tool input_data (files w) =
              (Raise (PyException "TypeError"
                        (class_name tool +:+ ".run() got multiple values for argument 'self'")),
               files w)).
    { unfold call_run. rewrite Hself. reflexivity. }
    rewrite (execute_tool_raises _ _ _ _ _ Hcall). destruct w; eauto.
  - assert (Hrun : exists cls message,
              call_run tool input_data (files w) = (Raise (ToolError cls message), files w)).
    { rewrite (call_run_without_self _ _ Hself). destruct Htool as [->| ->].
      - destruct (converter_run_not_object E input_data (files w) Hparse)
          as (message & [Hrun|Hrun]); eauto.
      - exact (compressor_run_not_object E input_data (files w) Hparse). }
    destruct Hrun as (cls & message & Hcall).
    rewrite (execute_tool_raises _ _ _ _ _ Hcall). destruct w, cls; eauto.
Qed.

Lemma json_request_to_image_tool_returns_no_file_witness :
  run_tool default_env "image-converter"
    (json_request (JObj [("image_file_path", JStr "photo.png");
                         ("target_format", JStr "png")]))
    (initial_world default_env ∅) =
    (Raise (HTTPException 500
              "Failed to convert image: 'str' object has no attribute 'file'"),
     initial_world default_env ∅)
  /\ exists status_code detail,
       run_tool default_env "image-converter"
         (json_request (JObj [("image_file_path", JStr "photo.png");
                              ("target_format", JStr "png")]))
         (initial_world default_env ∅) =
         (Raise (HTTPException status_code detail), initial_world default_env ∅).
Proof.
  split; [reflexivity|].
  destruct (json_request_to_image_tool_returns_no_file default_env
              (initial_world default_env ∅) "image-converter"
              (ImageConverterTool default_env)
              (json_request (JObj [("image_file_path", JStr "photo.png");
                                   ("target_format", JStr "png")])))
    as [Hrun _]; [reflexivity | left; reflexivity | reflexivity |].
  exact Hrun.
Defined.

(** X24.  [convert_image] checks the target format first, without regard
    to letter case: for a format that is not among the allowed ones it
    raises [ValueError] naming the format, whatever it was given as
    input, and neither opens nor writes anything. *)
Theorem convert_image_checks_the_format_first
    (E : Env) (input_path : PyVal) (target_format : string) (quality : Z) (fs : FS)
    (Hformat : str_in (lower E target_format) (ALLOWED_IMAGE_FORMATS (settings E)) = false) :
  convert_image E input_path target_format quality fs =
    (Raise (PyException "ValueError" ("Format " +:+ target_format +:+ " not allowed")), fs).
Proof.
  unfold convert_image, try_except, raise. rewrite Hformat. reflexivity.
Qed.

Lemma convert_image_checks_the_format_first_witness :
  convert_image default_env (upload_object "photo.png" png_bytes) "TIFF" 85 ∅ =
    (Raise (PyException "ValueError" "Format TIFF not allowed"), ∅).
Proof.
  apply (convert_image_checks_the_format_first default_env
           (upload_object "photo.png" png_bytes) "TIFF" 85 ∅).
  reflexivity.
Defined.

(** Digits alone: all safe, no two dots in a row. *)
Lemma digits_safe (E : Env) (digits : string) :
  str_filter is_ascii_digit digits = digits ->
  str_filter (safe_char E) digits = digits
  /\ str_contains ".." digits = false.
Proof.
  induction digits as [|c rest IH]; [intros _; split; reflexivity|].
  intros Hdigits. cbn [str_filter] in Hdigits.
  destruct (is_ascii_digit c) eqn:Hc.
  - injection Hdigits as Hrest. destruct (IH Hrest) as [Hsafe Hdots].
    split.
    + cbn [str_filter]. rewrite (digit_is_safe E c Hc), Hsafe. reflexivity.
    + assert (Hstart : startswith ".." (String c rest) = false).
      { cbn [startswith].
        destruct (Ascii.eqb_spec "." c) as [<-|_]; [discriminate Hc | reflexivity]. }
      rewrite str_contains_cons, Hstart, Hdots. reflexivity.
  - pose proof (length_str_filter is_ascii_digit rest) as Hlen.
    rewrite Hdigits in Hlen. simpl in Hlen. lia.
Qed.

(** The name [convert_image] makes up is left as it is by
    [clean_filename]. *)
Lemma clean_filename_converted_name (E : Env) (h : Z) :
  clean_filename E ("converted_" +:+ pretty (h mod 10000000)) =
    Ok ("converted_" +:+ pretty (h mod 10000000)).
Proof.
  assert (Hdigits : str_filter is_ascii_digit (pretty (h mod 10000000)) =
                    pretty (h mod 10000000)).
  { apply pretty_Z_digits. apply Z.mod_pos_bound. lia. }
  destruct (digits_safe E _ Hdigits) as [Hsafe Hdots].
  set (tail := pretty (h mod 10000000)) in *.
  change ("converted_" +:+ tail)
    with (String "c" (String "o" (String "n" (String "v" (String "e"
           (String "r" (String "t" (String "e" (String "d" (String "_" tail)))))))))).
  apply clean_filename_fixed_point.
  - reflexivity.
  - cbn [str_filter].
    change (safe_char E "c") with true. change (safe_char E "o") with true.
    change (safe_char E "n") with true. change (safe_char E "v") with true.
    change (safe_char E "e") with true. change (safe_char E "r") with true.
    change (safe_char E "t") with true. change (safe_char E "d") with true.
    change (safe_char E "_") with true.
    cbn iota. rewrite Hsafe. reflexivity.
  - assert (Hstep : forall c rest,
              Ascii.eqb "." c = false ->
              str_contains ".." (String c rest) = str_contains ".." rest).
    { intros c rest Hc. rewrite str_contains_cons.
      cbn [startswith]. rewrite Hc. reflexivity. }
    rewrite !Hstep by reflexivity. exact Hdots.
Qed.

(** X25.  When [convert_image] returns, the target format was an allowed
    one; the name it returns is [converted_] followed by the hash of the
    uploaded file's name modulo 10000000, a dot and the target format in
    lower case, so nothing of the uploaded name itself is in it; the path
    it returns is that name under [temp_dir / image_converter]; and the
    storage is the one before with one file written, at that path. *)
Theorem convert_image_result
    (E : Env) (input_path : PyVal) (target_format : string) (quality : Z)
    (out : string * string) (fs fs' : FS)
    (Hok : convert_image E input_path target_format quality fs = (Ok out, fs')) :
  str_in (lower E target_format) (ALLOWED_IMAGE_FORMATS (settings E)) = true
  /\ exists filename h encoded,
       getattr input_path "filename" = Ok filename
       /\ py_hash E filename = Ok h
       /\ snd out = ("converted_" +:+ pretty (h mod 10000000))
                      +:+ "." +:+ lower E target_format
       /\ fst out = path_join E (path_join E (temp_dir E) "image_converter") (snd out)
       /\ fs' = <[fst out := encoded]> fs.
Proof.
  assert (Hdotted : forall x, str_truthy ("." +:+ x) = true) by reflexivity.
  assert (Hstarts : forall x, startswith "." ("." +:+ x) = true)
    by (intros x; destruct x; reflexivity).
  revert Hok.
  unfold convert_image, generate_output_path, try_except, bind, lift, ret, raise,
    mkdir, write_bytes.
  rewrite Hdotted, Hstarts.
  destruct (str_in (lower E target_format) (ALLOWED_IMAGE_FORMATS (settings E)));
    cbn [negb]; [|discriminate].
  intros Hok. split; [reflexivity|].
  destruct (getattr input_path "file") as [stream|e]; [|discriminate].
  destruct (Image_open E stream) as [image|e]; [|discriminate].
  repeat case_match; simplify_eq; cbn [fst snd] in *; simplify_eq;
    match goal with
    | Hname : getattr input_path "filename" = Ok ?filename,
      Hhash : py_hash E ?filename = Ok ?h,
      Hclean : clean_filename E _ = Ok _ |- _ =>
        rewrite clean_filename_converted_name in Hclean; injection Hclean as <-;
        exists filename, h; eexists; repeat split; assumption
    end.
Qed.

Lemma convert_image_result_witness :
  convert_image default_env (upload_object "photo.png" png_bytes) "PNG" 85 ∅ =
    (Ok ("/tmp/tool-execution/image_converter/converted_286.png", "converted_286.png"),
     <["/tmp/tool-execution/image_converter/converted_286.png" := png_bytes]> ∅)
  /\ str_in (lower default_env "PNG") (ALLOWED_IMAGE_FORMATS (settings default_env)) = true.
Proof.
  split; [reflexivity|].
  apply (convert_image_result default_env (upload_object "photo.png" png_bytes) "PNG" 85
           ("/tmp/tool-execution/image_converter/converted_286.png", "converted_286.png")
           ∅ (<["/tmp/tool-execution/image_converter/converted_286.png" := png_bytes]> ∅)).
  reflexivity.
Defined.

(** X26.  When [compress_image] returns, the file it wrote is in a
    directory named after the stem of the uploaded file's name, not after
    the tool: the path it returns is the returned name under
    [temp_dir / stem], and the storage is the one before with one file
    written, at that path. *)
Theorem compress_image_result
    (E : Env) (input_path : PyVal) (quality : Z)
    (out : string * string) (fs fs' : FS)
    (Hok : compress_image E input_path quality fs = (Ok out, fs')) :
  exists filename file_name ext encoded,
    getattr input_path "filename" = Ok filename
    /\ splitext E filename = Ok (file_name, ext)
    /\ fst out = path_join E (path_join E (temp_dir E) file_name) (snd out)
    /\ fs' = <[fst out := encoded]> fs.
Proof.
  revert Hok.
  unfold compress_image, generate_output_path, try_except, bind, lift, ret, raise,
    mkdir, write_bytes.
  destruct (getattr input_path "file") as [stream|e]; [|discriminate].
  destruct (Image_open E stream) as [image|e]; [|discriminate].
  destruct (getattr input_path "filename") as [filename|e].
  2:{ intros Hok. repeat case_match; simplify_eq. }
  destruct (splitext E filename) as [[file_name ext]|e] eqn:Hsplit.
  2:{ intros Hok. repeat case_match; simplify_eq. }
  intros Hok. exists filename, file_name, ext.
  repeat case_match; simplify_eq; cbn [fst snd] in *; simplify_eq;
    eexists; (split; [reflexivity|]); (split; [exact Hsplit|]); split; reflexivity.
Qed.

Lemma compress_image_result_witness :
  let out := ("/tmp/tool-execution/holiday/compressed_224.png.png",
              "compressed_224.png.png") in
  let stored := <["/tmp/tool-execution/holiday/compressed_224.png.png" := png_bytes]> ∅ in
  compress_image default_env (upload_object "holiday.png" png_bytes) 75 ∅ = (Ok out, stored)
  /\ exists filename file_name ext encoded,
       getattr (upload_object "holiday.png" png_bytes) "filename" = Ok filename
       /\ splitext default_env filename = Ok (file_name, ext)
       /\ fst out =
            path_join default_env (path_join default_env (temp_dir default_env) file_name)
              (snd out)
       /\ stored = <[fst out := encoded]> ∅.
Proof.
  intros out stored. split; [reflexivity|].
  exact (compress_image_result default_env (upload_object "holiday.png" png_bytes) 75
           out ∅ stored eq_refl).
Defined.

(** X27.  Every format in the default [ALLOWED_IMAGE_FORMATS] has an
    entry in [MEDIA_TYPES]: a file whose suffix is a dot and such a
    format is served with a media type that starts with [image/], never
    with the fallback type. *)
Theorem allowed_formats_have_image_media_types
    (E : Env) (format filename : string)
    (Hallowed : In format (ALLOWED_IMAGE_FORMATS default_settings))
    (Hsuffix : path_suffix E filename = "." +:+ format) :
  exists media_type,
    get_media_type_and_extension E (PyStr filename) = Ok (media_type, "." +:+ format)
    /\ startswith "image/" media_type = true
    /\ media_type <> "application/octet-stream".
Proof.
  unfold get_media_type_and_extension, Path, rbind. rewrite Hsuffix.
  simpl in Hallowed.
  destruct Hallowed as [<-|[<-|[<-|[<-|[<-|[<-|[]]]]]]];
    eexists; (split; [reflexivity|]); (split; [reflexivity | discriminate]).
Qed.

Lemma allowed_formats_have_image_media_types_witness :
  exists media_type,
    get_media_type_and_extension default_env (PyStr "converted_286.webp") =
      Ok (media_type, ".webp")
    /\ startswith "image/" media_type = true.
Proof.
  destruct (allowed_formats_have_image_media_types default_env "webp" "converted_286.webp")
    as (media_type & Hmedia & Himage & _).
  - simpl. tauto.
  - reflexivity.
  - exists media_type. split; [exact Hmedia | exact Himage].
Defined.
